(** * Red Mail: composition of an email message (redmail/email/sender.py)

    A shallow embedding of [EmailSender] and of the collaborators it calls,
    followed by the properties of the composition core. *)

From Stdlib Require Import ZArith Lia Ascii String.
From stdpp Require Import base option list strings gmap fin_maps.

Local Open Scope string_scope.

(** ** Python values and truthiness *)

(** Receivers, cc and bcc are [Union[List[str], str, None]]. *)
Inductive addrs :=
| AddrStr (s : string)
| AddrList (l : list string).

(** Values of the Jinja parameter dictionaries ([Dict[str, Any]]).
    [VEmailAddress] and [VError] stand for [redmail.models.EmailAddress] and
    [redmail.models.Error], which sender.py only constructs. *)
Inductive pyval :=
| VNone
| VStr (s : string)
| VInt (z : Z)
| VDatetime (t : Z)
| VEmailAddress (address : option string)
| VError (content_type : string).

#[global] Instance addrs_eq_dec : EqDecision addrs.
Proof. solve_decision. Defined.
#[global] Instance pyval_eq_dec : EqDecision pyval.
Proof. solve_decision. Defined.

(** Python's [bool(x)] for the types that reach an [or] or an [if]. *)
Class Truthy (A : Type) := truthy : A → bool.

#[global] Instance string_truthy : Truthy string :=
  λ s, match s with EmptyString => false | String _ _ => true end.
#[global] Instance list_truthy {A} : Truthy (list A) :=
  λ l, match l with [] => false | _ :: _ => true end.
#[global] Instance addrs_truthy : Truthy addrs :=
  λ a, match a with AddrStr s => truthy s | AddrList l => truthy l end.
#[global] Instance gmap_truthy {V} : Truthy (gmap string V) :=
  λ m, negb (bool_decide (m = ∅)).
#[global] Instance option_truthy {A} `{Truthy A} : Truthy (option A) :=
  λ o, match o with None => false | Some x => truthy x end.

(** [a or b]: [a] when it is truthy, otherwise [b] as it is. *)
Definition py_or {A} `{Truthy A} (a b : option A) : option A :=
  if truthy a then a else b.

(** ** Tabular data and group spans (redmail/email/envs.py) *)

Inductive scalar :=
| SStr (s : string)
| SNum (z : Z).

#[global] Instance scalar_eq_dec : EqDecision scalar.
Proof. solve_decision. Defined.

(** A row maps column names to scalars; a missing key is null. *)
Record TabularData := {
  columns : list string;
  rows : list (gmap string scalar);
  n_grouping : nat  (* the grouping columns are the first [n_grouping] columns *)
}.

Record GroupSpan := {
  is_group_start : bool;
  span_length : nat
}.

Module Envs.

(** Modelled from the spec: envs.py is not in the source tree; some column
    of [cols] has different values in the two rows, where null equals null
    only. *)
Definition differs (cols : list string) (prev cur : gmap string scalar) : bool :=
  existsb (λ c, negb (bool_decide (prev !! c = cur !! c))) cols.

(** Modelled from the spec: envs.py is not in the source tree; this
    is the group-start rule of the GroupSpanCalculator after the first row:
    one of the columns [0..k] differs from the previous row, or the
    enclosing column [k-1] starts a group at this row. *)
Fixpoint changed (cols : list string) (k : nat)
         (prev cur : gmap string scalar) : bool :=
  differs (take (S k) cols) prev cur
  || match k with
     | O => false
     | S k' => changed cols k' prev cur
     end.

(** Modelled from the spec: envs.py is not in the source tree; a row
    starts a group in the column at position [k] if it is the first row or
    the rule above applies. *)
Definition starts_group (cols : list string) (k : nat)
           (prev : option (gmap string scalar)) (cur : gmap string scalar) : bool :=
  match prev with
  | None => true
  | Some p => changed cols k p cur
  end.

(** Modelled from the spec: envs.py is not in the source tree; the
    group-start flag of every row, scanning the rows in order. *)
Fixpoint scan_starts (cols : list string) (k : nat)
         (prev : option (gmap string scalar)) (rs : list (gmap string scalar))
  : list bool :=
  match rs with
  | [] => []
  | r :: rs' => starts_group cols k prev r :: scan_starts cols k (Some r) rs'
  end.

(** Modelled from the spec: envs.py is not in the source tree; in a column
    that is not a grouping column every row is its own group. *)
Definition group_starts (t : TabularData) (k : nat) : list bool :=
  if decide (k < n_grouping t)
  then scan_starts (columns t) k None (rows t)
  else replicate (length (rows t)) true.

(** Modelled from the spec: envs.py is not in the source tree; the number
    of leading rows that stay in the running group. *)
Fixpoint continued (flags : list bool) : nat :=
  match flags with
  | false :: flags' => S (continued flags')
  | _ => 0
  end.

(** Modelled from the spec: envs.py is not in the source tree; the span
    read off a list of group-start flags. *)
Definition span_at (flags : list bool) (i : nat) : nat :=
  match flags !! i with
  | Some true => S (continued (drop (S i) flags))
  | _ => 0
  end.

(** Modelled from the spec: envs.py is not in the source tree; the
    span of a group-start row counts the row and the consecutive rows after
    it that start no group; other rows have span 0. *)
Definition get_span (t : TabularData) (row_index k : nat) : GroupSpan :=
  let flags := group_starts t k in
  match flags !! row_index with
  | Some true =>
      {| is_group_start := true;
         span_length := S (continued (drop (S row_index) flags)) |}
  | _ => {| is_group_start := false; span_length := 0 |}
  end.

(** Modelled from the spec: envs.py is not in the source tree; a row
    is the last of its group when the next row is out of range or starts a
    group. *)
Definition is_last_group_row (t : TabularData) (row_index k : nat) : bool :=
  match group_starts t k !! S row_index with
  | None => true
  | Some b => b
  end.

(** Sum of [span_length] over the rows marked [is_group_start]. *)
Definition span_total (t : TabularData) (k : nat) : nat :=
  sum_list ((λ i, let g := get_span t i k in
                  if is_group_start g then span_length g else 0)
              <$> seq 0 (length (rows t))).

End Envs.

(** ** Messages *)

Inductive header_value :=
| HNone
| HText (s : string)
| HList (l : list string).

Definition header_of_str (s : option string) : header_value :=
  match s with None => HNone | Some s' => HText s' end.

Definition header_of_addrs (a : addrs) : header_value :=
  match a with AddrStr s => HText s | AddrList l => HList l end.

Record InlineResource := {
  id : string;
  media_type : string;
  payload : string
}.

Inductive Encoding := base64 | quoted_printable | no_encoding.

Record Attachment := {
  filename : string;
  att_media_type : string;
  att_payload : string;
  encoding : Encoding
}.

Inductive Subtype := mixed | alternative | related.

(** The tree of MIME parts of a composed message. *)
#[warnings="-register-all"]
Inductive Mime :=
| Leaf (content_type : string) (content : string)
| Resource (r : InlineResource)
| AttachmentPart (a : Attachment)
| Multipart (subtype : Subtype) (children : list Mime).

(** [email.message.EmailMessage]: headers in the order they were set, and
    the content, if any was attached. *)
Record EmailMessage := {
  headers : list (string * header_value);
  body : option Mime
}.

Definition EmailMessage_new : EmailMessage := {| headers := []; body := None |}.

(** [msg[name] = value] *)
Definition set_header (name : string) (value : header_value) (msg : EmailMessage)
  : EmailMessage :=
  {| headers := headers msg ++ [(name, value)]; body := body msg |}.

(** The characters at which [str.splitlines] breaks a line, among the
    first 256 code points. *)
Definition is_line_boundary (c : Ascii.ascii) : bool :=
  bool_decide (Ascii.nat_of_ascii c ∈ [10; 11; 12; 13; 28; 29; 30; 133]).

(** [len(value.splitlines()) > 1]: a line boundary with something after it,
    where a carriage return and the line feed after it are one boundary. *)
Fixpoint multi_line (s : string) : bool :=
  match s with
  | EmptyString => false
  | String c rest =>
      if is_line_boundary c
      then match rest with
           | EmptyString => false
           | String c' rest' =>
               if bool_decide (c = "013"%char) && bool_decide (c' = "010"%char)
               then match rest' with EmptyString => false | String _ _ => true end
               else true
           end
      else multi_line rest
  end.

Definition linefeed_message : string :=
  "Header values may not contain linefeed or carriage return characters".

Definition address_message : string :=
  "invalid arguments; address parts cannot contain CR or LF".

(** [msg[name]]: the first header of that name. *)
Definition get_header (name : string) (msg : EmailMessage) : option header_value :=
  (λ found, found.2.2) <$> list_find (λ h, h.1 = name) (headers msg).

#[global] Instance header_value_eq_dec : EqDecision header_value.
Proof. solve_decision. Defined.
#[global] Instance Encoding_eq_dec : EqDecision Encoding.
Proof. solve_decision. Defined.
#[global] Instance Subtype_eq_dec : EqDecision Subtype.
Proof. solve_decision. Defined.

(** ** What a call receives *)

Record Image := {
  image_media_type : string;
  image_bytes : string
}.

Inductive AttachmentInput :=
| RawBytes (b : string)
| RawText (s : string)
| PathRef (path : string)
| TableData (t : TabularData).

(** The keyword arguments of [send] and [get_message]; dictionaries whose
    order shows in the message are association lists. *)
Module kw.
Record args := {
  subject : option string;
  sender : option string;
  receivers : option addrs;
  cc : option addrs;
  bcc : option addrs;
  html : option string;
  text : option string;
  html_template : option string;
  text_template : option string;
  body_images : option (list (string * Image));
  body_tables : option (list (string * TabularData));
  body_params : option (gmap string pyval);
  attachments : option (list (string * AttachmentInput))
}.

(** A call that passes one more keyword argument. *)
Definition set_subject (v : option string) (a : args) : args :=
  {| subject := v; sender := sender a; receivers := receivers a; cc := cc a;
     bcc := bcc a; html := html a; text := text a;
     html_template := html_template a; text_template := text_template a;
     body_images := body_images a; body_tables := body_tables a;
     body_params := body_params a; attachments := attachments a |}.




Definition set_text_template (v : option string) (a : args) : args :=
  {| subject := subject a; sender := sender a; receivers := receivers a; cc := cc a;
     bcc := bcc a; html := html a; text := text a;
     html_template := html_template a; text_template := v;
     body_images := body_images a; body_tables := body_tables a;
     body_params := body_params a; attachments := attachments a |}.

Definition set_body_params (v : option (gmap string pyval)) (a : args) : args :=
  {| subject := subject a; sender := sender a; receivers := receivers a; cc := cc a;
     bcc := bcc a; html := html a; text := text a;
     html_template := html_template a; text_template := text_template a;
     body_images := body_images a; body_tables := body_tables a;
     body_params := v; attachments := attachments a |}.

Definition set_attachments (v : option (list (string * AttachmentInput))) (a : args)
  : args :=
  {| subject := subject a; sender := sender a; receivers := receivers a; cc := cc a;
     bcc := bcc a; html := html a; text := text a;
     html_template := html_template a; text_template := text_template a;
     body_images := body_images a; body_tables := body_tables a;
     body_params := body_params a; attachments := v |}.

(** Every parameter defaults to [None]. *)
Definition default : args :=
  {| subject := None; sender := None; receivers := None; cc := None;
     bcc := None; html := None; text := None; html_template := None;
     text_template := None; body_images := None; body_tables := None;
     body_params := None; attachments := None |}.
End kw.

(** ** The composing object *)

Inductive smtp_class := SMTP | SMTP_SSL | LMTP.

#[global] Instance smtp_class_eq_dec : EqDecision smtp_class.
Proof. solve_decision. Defined.

(** The attributes of an [EmailSender]; a Jinja environment is the finite
    map from template names to the templates its loader finds. *)
Module self.
Record EmailSender := {
  host : string;
  port : Z;
  user_name : option string;
  password : option string;
  sender : option string;
  receivers : option addrs;
  cc : option addrs;
  bcc : option addrs;
  subject : option string;
  text : option string;
  html : option string;
  html_template : option string;
  text_template : option string;
  use_starttls : bool;
  cls_smtp : smtp_class;
  kws_smtp : gmap string pyval;
  default_html_theme : option string;
  default_text_theme : option string;
  templates_html : gmap string string;
  templates_html_table : gmap string string;
  templates_text : gmap string string;
  templates_text_table : gmap string string;
  attachment_encoding : string
}.
End self.
Export self(EmailSender).

(** ** Exceptions, events and the monad of method bodies *)

Inductive Exc :=
| ValueError (msg : string)
| TemplateNotFound (name : string)
| TemplateRenderError
| DuplicateResourceKey (key : string)
| AttachmentReadError (path : string)
| UnsupportedAttachmentFormat (file : string)
| DeliveryError (cause : string)
| GetuserError.  (* getpass.getuser() finds no user name *)

Inductive outcome (A : Type) :=
| Return (a : A)
| Raise (e : Exc).
Arguments Return {A} a.
Arguments Raise {A} e.

Inductive BodyKind := TextBody | HTMLBody.

(** Calls on the SMTP server object. *)
Inductive SmtpCall :=
| SmtpInit (cls : smtp_class) (host : string) (port : Z) (kws : gmap string pyval)
| SmtpStarttls
| SmtpLogin (user password : option string)
| SmtpSendMessage (msg : EmailMessage)
| SmtpQuit.

(** What a method call does outside the object: the bodies and attachments
    it attaches, and the calls it makes on the transport. *)
Inductive Event :=
| BodyAttach (kind : BodyKind) (template table_template : option string)
             (content : option string)
             (images : option (list (string * Image)))
             (tables : option (list (string * TabularData)))
             (jinja_params : gmap string pyval)
| AttachmentsAttach (atts : list (string * AttachmentInput)) (enc : string)
| Smtp (c : SmtpCall).

Definition is_transport (e : Event) : bool :=
  match e with Smtp _ => true | _ => false end.

Record World := {
  this : EmailSender;
  trace : list Event;
  clock : nat  (* how many times the wall clock was read *)
}.

Definition M (A : Type) : Type := World → outcome A * World.

#[global] Instance M_ret : MRet M := λ A a w, (Return a, w).
#[global] Instance M_bind : MBind M := λ A B f m w,
  match m w with
  | (Return a, w') => f a w'
  | (Raise e, w') => (Raise e, w')
  end.

#[global] Instance M_fmap : FMap M := λ A B f m, a ← m; mret (f a).

Definition raise {A} (e : Exc) : M A := λ w, (Raise e, w).

(** [self.f] *)
Definition attr {A} (f : EmailSender → A) : M A := λ w, (Return (f (this w)), w).

(** [self.f = v], through a function that rebuilds the object. *)
Definition setattr (upd : EmailSender → EmailSender) : M unit :=
  λ w, (Return tt, {| this := upd (this w); trace := trace w; clock := clock w |}).

Definition emit (e : Event) : M unit :=
  λ w, (Return tt, {| this := this w; trace := trace w ++ [e]; clock := clock w |}).

(** A collaborator that returns or raises without touching the object. *)
Definition lift {A} (o : outcome A) : M A := λ w, (o, w).

(** A computation that leaves the object as it found it. *)
Definition preserves_self {A} (m : M A) : Prop :=
  ∀ w, this (m w).2 = this w.

(** A computation that makes no call on the transport. *)
Definition transport_free {A} (m : M A) : Prop :=
  ∀ w, ∃ evs, trace (m w).2 = (trace w ++ evs)%list
              ∧ forallb (λ e, negb (is_transport e)) evs = true.

#[global] Instance outcome_ret : MRet outcome := λ A a, Return a.
#[global] Instance outcome_bind : MBind outcome := λ A B f o,
  match o with
  | Return a => f a
  | Raise e => Raise e
  end.

Definition is_not_None {A} (o : option A) : bool :=
  match o with Some _ => true | None => false end.

(** [d.update(other)]: the entries of [other] win. *)
Definition update (d other : gmap string pyval) : gmap string pyval := other ∪ d.

(** ** What the composition core calls but does not own *)

Record Platform := {
  node : string;             (* platform.node() *)
  getuser : option string;   (* getpass.getuser(), which raises without a user *)
  now : nat → Z;             (* datetime.datetime.now(), at each reading of the clock *)
  (* email.headerregistry: the header factory refuses a one-line string *)
  address_refused : string → string → bool;
  (* jinja2.Environment(loader=jinja2.FileSystemLoader(path)) *)
  file_system_loader : string → gmap string string;
  (* the template engine: a template or a source, and the variables *)
  render : BodyKind → option string → option string → gmap string pyval → option string;
  render_table : BodyKind → option string → TabularData → option string;
  make_cid : nat → string;
  read_file : string → option string;
  mime_types : gmap string string;
  table_serializers : gmap string (TabularData → string);
  text_encoding : string → Encoding;
  (* the SMTP server: which of its calls raise, and with what cause *)
  smtp_raises : SmtpCall → option string
}.

Section Sender.

Context (P : Platform).

(** *** Bodies (redmail/email/body.py) *)

Definition content_type_of (kind : BodyKind) : string :=
  match kind with TextBody => "text/plain" | HTMLBody => "text/html" end.

Fixpoint assoc {A} (key : string) (l : list (string * A)) : option A :=
  match l with
  | [] => None
  | (k, v) :: l' => if decide (k = key) then Some v else assoc key l'
  end.

(** Modelled from the spec: body.py is not in the source tree; the
    InlineResourceRegistry gives every distinct key one resource with a
    content id of its own, accepts the same payload again under a key and
    refuses a different one. *)
Fixpoint embed_all (registry : list (string * InlineResource))
         (images : list (string * Image))
  : outcome (list (string * InlineResource)) :=
  match images with
  | [] => Return registry
  | (key, img) :: rest =>
      match assoc key registry with
      | Some r =>
          if decide (payload r = image_bytes img)
          then embed_all registry rest
          else Raise (DuplicateResourceKey key)
      | None =>
          embed_all (registry ++ [(key, {| id := make_cid P (length registry);
                                           media_type := image_media_type img;
                                           payload := image_bytes img |})]) rest
      end
  end.

(** Modelled from the spec: body.py is not in the source tree; the
    TableRenderer expands every table into a fragment that the body refers
    to by the table's key. *)
Fixpoint render_tables (kind : BodyKind) (table_template : option string)
         (tables : list (string * TabularData)) (params : gmap string pyval)
  : outcome (gmap string pyval) :=
  match tables with
  | [] => Return params
  | (key, t) :: rest =>
      match render_table P kind table_template t with
      | None => Raise TemplateRenderError
      | Some fragment =>
          render_tables kind table_template rest (<[key := VStr fragment]> params)
      end
  end.

(** Modelled from the spec: body.py is not in the source tree; the
    MessageAssembler puts a second body next to the first one in a
    multipart/alternative, in the order they are attached, and leaves a
    lone body as the direct content. *)
Definition add_alternative (part : Mime) (msg : EmailMessage) : EmailMessage :=
  {| headers := headers msg;
     body := Some match body msg with
                  | None => part
                  | Some (Multipart alternative parts) =>
                      Multipart alternative (parts ++ [part])
                  | Some first => Multipart alternative [first; part]
                  end |}.

(** Modelled from the spec: body.py is not in the source tree;
    [TextBody.attach] and [HTMLBody.attach] render the body with the tables
    and the inline images, wrap HTML that has inline resources in a
    multipart/related, and add the result to the message. *)
Definition Body_attach (kind : BodyKind) (template table_template : option string)
           (msg : EmailMessage) (content : option string)
           (images : option (list (string * Image)))
           (tables : option (list (string * TabularData)))
           (jinja_params : gmap string pyval) : outcome EmailMessage :=
  registry ← embed_all [] (default [] images);
  params ← render_tables kind table_template (default [] tables) jinja_params;
  let params :=
    foldr (λ kr acc, <[kr.1 := VStr ("cid:" +:+ id kr.2)]> acc) params registry in
  match render P kind template content params with
  | None => Raise TemplateRenderError
  | Some out =>
      let leaf := Leaf (content_type_of kind) out in
      let part := match registry with
                  | [] => leaf
                  | _ :: _ => Multipart related (leaf :: (Resource ∘ snd <$> registry))
                  end in
      Return (add_alternative part msg)
  end.

(** *** Attachments (redmail/email/attachment.py) *)

Definition lower (c : Ascii.ascii) : Ascii.ascii :=
  let n := Ascii.nat_of_ascii c in
  if decide (65 ≤ n ≤ 90)%nat then Ascii.ascii_of_nat (n + 32) else c.

Fixpoint lowercase (s : string) : string :=
  match s with
  | EmptyString => EmptyString
  | String c s' => String (lower c) (lowercase s')
  end.

(** Modelled from the spec: attachment.py is not in the source tree; the
    lowercase extension of a file name, with its dot, empty if none. *)
Fixpoint extension (name : string) : string :=
  match name with
  | EmptyString => EmptyString
  | String c rest =>
      match extension rest with
      | EmptyString =>
          if decide (c = "."%char) then String c (lowercase rest) else EmptyString
      | ext => ext
      end
  end.

(** Modelled from the spec: attachment.py is not in the source tree; the
    AttachmentResolver takes the media type from the extension, reads a
    referenced file in full, and serializes a table by the extension of the
    file name. *)
Definition resolve (name : string) (input : AttachmentInput) : outcome Attachment :=
  let mt := default "application/octet-stream" (mime_types P !! extension name) in
  match input with
  | RawBytes b =>
      Return {| filename := name; att_media_type := mt; att_payload := b;
                encoding := base64 |}
  | RawText s =>
      Return {| filename := name; att_media_type := mt; att_payload := s;
                encoding := text_encoding P s |}
  | PathRef path =>
      match read_file P path with
      | None => Raise (AttachmentReadError path)
      | Some b =>
          Return {| filename := name; att_media_type := mt; att_payload := b;
                    encoding := base64 |}
      end
  | TableData t =>
      match table_serializers P !! extension name with
      | None => Raise (UnsupportedAttachmentFormat name)
      | Some serialize =>
          Return {| filename := name; att_media_type := mt;
                    att_payload := serialize t;
                    encoding := text_encoding P (serialize t) |}
      end
  end.

(** Modelled from the spec: attachment.py is not in the source tree; the
    attachments are resolved in order and the first failure ends the call. *)
Fixpoint resolve_all (atts : list (string * AttachmentInput)) : outcome (list Attachment) :=
  match atts with
  | [] => Return []
  | (name, input) :: rest =>
      a ← resolve name input;
      others ← resolve_all rest;
      Return (a :: others)
  end.

(** Modelled from the spec: attachment.py is not in the source tree; with
    attachments the body, if any, becomes the first child of a
    multipart/mixed root and the attachments follow it. *)
Definition Attachments_attach (atts : list (string * AttachmentInput))
           (msg : EmailMessage) : outcome EmailMessage :=
  parts ← resolve_all atts;
  Return {| headers := headers msg;
            body := Some (Multipart mixed
                            (option_list (body msg) ++ (AttachmentPart <$> parts))) |}.

(** *** EmailSender (redmail/email/sender.py) *)

Definition __init__ (host : string) (port : Z) (user_name password : option string)
           (cls_smtp : smtp_class) (use_starttls : bool)
           (kwargs : gmap string pyval) : EmailSender :=
  {| self.host := host;
     self.port := port;
     self.user_name := user_name;
     self.password := password;
     self.sender := None;
     self.receivers := None;
     self.cc := None;
     self.bcc := None;
     self.subject := None;
     self.text := None;
     self.html := None;
     self.html_template := None;
     self.text_template := None;
     self.use_starttls := use_starttls;
     self.cls_smtp := cls_smtp;
     self.kws_smtp := kwargs;
     (* class attributes *)
     self.default_html_theme := Some "modest.html";
     self.default_text_theme := Some "pandas.txt";
     self.templates_html := file_system_loader P "templates/html";
     self.templates_html_table := file_system_loader P "templates/html/table";
     self.templates_text := file_system_loader P "templates/text";
     self.templates_text_table := file_system_loader P "templates/text/table";
     self.attachment_encoding := "UTF-8" |}.

Definition get_receivers (receivers : option addrs) : M (option addrs) :=
  d ← attr self.receivers;
  mret (py_or receivers d).

Definition get_cc (cc : option addrs) : M (option addrs) :=
  d ← attr self.cc;
  mret (py_or cc d).

Definition get_bcc (bcc : option addrs) : M (option addrs) :=
  d ← attr self.bcc;
  mret (py_or bcc d).

Definition get_sender (sender : option string) : M (option string) :=
  d ← attr self.sender;
  u ← attr self.user_name;
  mret (py_or (py_or sender d) u).

Definition header_of_recipients (a : option addrs) : header_value :=
  match a with None => HNone | Some v => header_of_addrs v end.

(** [email.policy.EmailPolicy.header_store_parse]: a string of more than one
    line raises; the header factory may refuse a string for its parts;
    lists and [None] are stored as they are. *)
Definition header_store_parse (name : string) (value : header_value)
  : outcome header_value :=
  match value with
  | HText s =>
      if multi_line s then Raise (ValueError linefeed_message)
      else if address_refused P name s then Raise (ValueError address_message)
           else Return value
  | HNone | HList _ => Return value
  end.

(** [msg[name] = value]; every name is set once in [_create_body], so that
    the at-most-once test of [__setitem__] never fires. *)
Definition EmailMessage_setitem (name : string) (value : header_value)
           (msg : EmailMessage) : outcome EmailMessage :=
  v ← header_store_parse name value;
  Return (set_header name v msg).

Definition _create_body (subject : string) (sender : option string)
           (receivers cc bcc : option addrs) : outcome EmailMessage :=
  let msg := EmailMessage_new in
  msg ← EmailMessage_setitem "from" (header_of_str sender) msg;
  msg ← EmailMessage_setitem "subject" (HText subject) msg;
  msg ← (if truthy receivers
         then EmailMessage_setitem "to" (header_of_recipients receivers) msg
         else Return msg);
  msg ← (if truthy cc
         then EmailMessage_setitem "cc" (header_of_recipients cc) msg
         else Return msg);
  msg ← (if truthy bcc
         then EmailMessage_setitem "bcc" (header_of_recipients bcc) msg
         else Return msg);
  Return msg.

(** [env.get_template(name)] *)
Definition get_template (env : gmap string string) (name : string) : M string :=
  match env !! name with
  | Some t => mret t
  | None => raise (TemplateNotFound name)
  end.

(** [getpass.getuser()] *)
Definition getuser_call : M string :=
  λ w, match getuser P with
       | Some user => (Return user, w)
       | None => (Raise GetuserError, w)
       end.

(** [datetime.datetime.now()]: every call reads the clock anew. *)
Definition datetime_now : M Z :=
  λ w, (Return (now P (clock w)),
        {| this := this w; trace := trace w; clock := S (clock w) |}).

Definition get_params (sender : option string) : M (gmap string pyval) :=
  user ← getuser_call;
  t ← datetime_now;
  mret {[ "node" := VStr (node P);
          "user" := VStr user;
          "now" := VDatetime t;
          "sender" := VEmailAddress sender ]}.

Definition get_html_params (extra : option (gmap string pyval))
           (sender : option string) : M (gmap string pyval) :=
  params ← get_params sender;
  let params := update params {[ "error" := VError "html-inline" ]} in
  mret match extra with
       | Some e => if truthy e then update params e else params
       | None => params
       end.

Definition get_text_params (extra : option (gmap string pyval))
           (sender : option string) : M (gmap string pyval) :=
  params ← get_params sender;
  let params := update params {[ "error" := VError "text" ]} in
  mret match extra with
       | Some e => if truthy e then update params e else params
       | None => params
       end.

Definition get_html_table_template (layout : option string) : M (option string) :=
  d ← attr self.default_html_theme;
  let layout := match layout with None => d | Some _ => layout end in
  match layout with
  | None => mret None
  | Some l => env ← attr self.templates_html_table; Some <$> get_template env l
  end.

Definition get_html_template (layout : option string) : M (option string) :=
  match layout with
  | None => mret None
  | Some l => env ← attr self.templates_html; Some <$> get_template env l
  end.

Definition get_text_table_template (layout : option string) : M (option string) :=
  d ← attr self.default_text_theme;
  let layout := match layout with None => d | Some _ => layout end in
  match layout with
  | None => mret None
  | Some l => env ← attr self.templates_text_table; Some <$> get_template env l
  end.

Definition get_text_template (layout : option string) : M (option string) :=
  match layout with
  | None => mret None
  | Some l => env ← attr self.templates_text; Some <$> get_template env l
  end.

(** [body.attach(msg, ...)] on a [TextBody] or an [HTMLBody]. *)
Definition attach (kind : BodyKind) (template table_template : option string)
           (msg : EmailMessage) (content : option string)
           (images : option (list (string * Image)))
           (tables : option (list (string * TabularData)))
           (jinja_params : gmap string pyval) : M EmailMessage :=
  emit (BodyAttach kind template table_template content images tables jinja_params);;
  lift (Body_attach kind template table_template msg content images tables jinja_params).

Definition get_message (a : kw.args) : M EmailMessage :=
  subject ← (d ← attr self.subject; mret (py_or (kw.subject a) d));
  sender ← get_sender (kw.sender a);
  receivers ← get_receivers (kw.receivers a);
  cc ← get_cc (kw.cc a);
  bcc ← get_bcc (kw.bcc a);
  html ← (d ← attr self.html; mret (py_or (kw.html a) d));
  text ← (d ← attr self.text; mret (py_or (kw.text a) d));
  html_template ← (d ← attr self.html_template; mret (py_or (kw.html_template a) d));
  text_template ← (d ← attr self.text_template; mret (py_or (kw.text_template a) d));
  match subject with
  | None => raise (ValueError "Email must have a subject")
  | Some subject =>
      msg ← lift (_create_body subject sender receivers cc bcc);
      msg ← (if is_not_None text || is_not_None text_template
             then
               template ← get_text_template text_template;
               table_template ← get_text_table_template None;
               jinja_params ← get_text_params (kw.body_params a) sender;
               attach TextBody template table_template msg text None
                      (kw.body_tables a) jinja_params
             else mret msg);
      msg ← (if is_not_None html || is_not_None html_template
             then
               template ← get_html_template html_template;
               table_template ← get_html_table_template None;
               jinja_params ← get_html_params (kw.body_params a) sender;
               attach HTMLBody template table_template msg html (kw.body_images a)
                      (kw.body_tables a) jinja_params
             else mret msg);
      match kw.attachments a with
      | Some atts =>
          if truthy atts
          then
            enc ← attr self.attachment_encoding;
            emit (AttachmentsAttach atts enc);;
            lift (Attachments_attach atts msg)
          else mret msg
      | None => mret msg
      end
  end.

(** A call on the server object: it reaches the transport, and may raise. *)
Definition smtp (c : SmtpCall) : M unit :=
  emit (Smtp c);;
  match smtp_raises P c with
  | Some cause => raise (DeliveryError cause)
  | None => mret tt
  end.

Definition connect : M unit :=
  user ← attr self.user_name;
  password ← attr self.password;
  cls ← attr self.cls_smtp;
  host ← attr self.host;
  port ← attr self.port;
  kws ← attr self.kws_smtp;
  smtp (SmtpInit cls host port kws);;
  starttls ← attr self.use_starttls;
  (if (starttls : bool) then smtp SmtpStarttls else mret tt);;
  (if is_not_None user || is_not_None password
   then smtp (SmtpLogin user password)
   else mret tt).

Definition send_message (msg : EmailMessage) : M unit :=
  connect;;
  smtp (SmtpSendMessage msg);;
  smtp SmtpQuit.

Definition send (a : kw.args) : M EmailMessage :=
  msg ← get_message a;
  send_message msg;;
  mret msg.

Definition with_templates (h t ht tt : gmap string string) (o : EmailSender)
  : EmailSender :=
  {| self.host := self.host o;
     self.port := self.port o;
     self.user_name := self.user_name o;
     self.password := self.password o;
     self.sender := self.sender o;
     self.receivers := self.receivers o;
     self.cc := self.cc o;
     self.bcc := self.bcc o;
     self.subject := self.subject o;
     self.text := self.text o;
     self.html := self.html o;
     self.html_template := self.html_template o;
     self.text_template := self.text_template o;
     self.use_starttls := self.use_starttls o;
     self.cls_smtp := self.cls_smtp o;
     self.kws_smtp := self.kws_smtp o;
     self.default_html_theme := self.default_html_theme o;
     self.default_text_theme := self.default_text_theme o;
     self.templates_html := h;
     self.templates_html_table := ht;
     self.templates_text := t;
     self.templates_text_table := tt;
     self.attachment_encoding := self.attachment_encoding o |}.

Definition set_template_paths (html text html_table text_table : option string)
  : M unit :=
  setattr (λ o,
    with_templates
      (from_option (file_system_loader P) (self.templates_html o) html)
      (from_option (file_system_loader P) (self.templates_text o) text)
      (from_option (file_system_loader P) (self.templates_html_table o) html_table)
      (from_option (file_system_loader P) (self.templates_text_table o) text_table)
      o).

End Sender.

(** ** Notions used to state the properties *)

(** The value a field takes from an argument and a stored default. *)
Definition chosen {A} `{Truthy A} (arg stored used : option A) : Prop :=
  (truthy arg = true → used = arg) ∧ (truthy arg = false → used = stored).

(** The same for the sender, which has the user name behind its default. *)
Definition chosen_sender (arg stored user used : option string) : Prop :=
  (truthy arg = true → used = arg)
  ∧ (truthy arg = false → truthy stored = true → used = stored)
  ∧ (truthy arg = false → truthy stored = false → used = user).

(** The message [_create_body] returns when the email library accepts every
    header value. *)
Definition created_message (subject : string) (sender : option string)
           (receivers cc bcc : option addrs) : EmailMessage :=
  let msg := EmailMessage_new in
  let msg := set_header "from" (header_of_str sender) msg in
  let msg := set_header "subject" (HText subject) msg in
  let msg := if truthy receivers
             then set_header "to" (header_of_recipients receivers) msg else msg in
  let msg := if truthy cc
             then set_header "cc" (header_of_recipients cc) msg else msg in
  let msg := if truthy bcc
             then set_header "bcc" (header_of_recipients bcc) msg else msg in
  msg.

(** The email library accepts the string as the value of the header: it is
    one line and the header factory does not refuse it. *)
Definition accepted (P : Platform) (name : string) (s : string) : bool :=
  negb (multi_line s) && negb (address_refused P name s).

Definition value_accepted (P : Platform) (name : string) (v : header_value) : bool :=
  match v with
  | HText s => accepted P name s
  | HNone | HList _ => true
  end.

(** Line 310 and line 322 of sender.py: a body of that kind is attached. *)
Definition has_text (o : EmailSender) (a : kw.args) : bool :=
  is_not_None (py_or (kw.text a) (self.text o))
  || is_not_None (py_or (kw.text_template a) (self.text_template o)).

Definition has_html (o : EmailSender) (a : kw.args) : bool :=
  is_not_None (py_or (kw.html a) (self.html o))
  || is_not_None (py_or (kw.html_template a) (self.html_template o)).

(** The body of a message: its content, or the first child of the
    multipart/mixed root when that is not an attachment. *)
Definition body_part (msg : EmailMessage) : option Mime :=
  match body msg with
  | Some (Multipart mixed (AttachmentPart _ :: _)) => None
  | Some (Multipart mixed (first :: _)) => Some first
  | Some (Multipart mixed []) => None
  | b => b
  end.

Definition is_text_part (m : Mime) : bool :=
  match m with
  | Leaf ct _ => bool_decide (ct = "text/plain")
  | _ => false
  end.

Definition is_html_part (m : Mime) : bool :=
  match m with
  | Leaf ct _ => bool_decide (ct = "text/html")
  | Multipart related (Leaf ct _ :: _) => bool_decide (ct = "text/html")
  | _ => false
  end.

(** How often [get_message] has read the clock before it reads it for the
    parameters of a body: once for the text body, if there is one, before
    the HTML body. *)
Definition earlier_readings (o : EmailSender) (a : kw.args) (kind : BodyKind) : nat :=
  match kind with
  | TextBody => 0
  | HTMLBody => if has_text o a then 1 else 0
  end.

(** What only composition raises besides the missing subject. *)
Definition is_composition_error (e : Exc) : bool :=
  match e with
  | TemplateNotFound _ | TemplateRenderError | DuplicateResourceKey _
  | AttachmentReadError _ | UnsupportedAttachmentFormat _ | GetuserError => true
  | ValueError _ | DeliveryError _ => false
  end.

(** The variables the core itself hands to a body of the given kind. *)
Definition error_marker (kind : BodyKind) : pyval :=
  match kind with
  | HTMLBody => VError "html-inline"
  | TextBody => VError "text"
  end.

Definition implicit_variables (P : Platform) (kind : BodyKind)
           (sender : option string) (user : string) (t : Z) : gmap string pyval :=
  {[ "node" := VStr (node P);
     "user" := VStr user;
     "now" := VDatetime t;
     "sender" := VEmailAddress sender;
     "error" := error_marker kind ]}.

(** ** The plan of a call *)

(** The calls [send_message] sets out to make on the server, in order:
    the constructor, [starttls] when asked for, [login] when a user name or
    a password is set, then the message and [quit]. *)
Definition planned_calls (o : EmailSender) (msg : EmailMessage) : list SmtpCall :=
  [SmtpInit (self.cls_smtp o) (self.host o) (self.port o) (self.kws_smtp o)]
  ++ (if self.use_starttls o then [SmtpStarttls] else [])
  ++ (if is_not_None (self.user_name o) || is_not_None (self.password o)
      then [SmtpLogin (self.user_name o) (self.password o)] else [])
  ++ [SmtpSendMessage msg; SmtpQuit].

(** The calls of a plan that are made on a server, up to and with the first
    one that raises, and the cause it raises with. *)
Fixpoint until_raise (P : Platform) (calls : list SmtpCall)
  : list SmtpCall * option string :=
  match calls with
  | [] => ([], None)
  | c :: rest =>
      match smtp_raises P c with
      | Some cause => ([c], Some cause)
      | None => (c :: (until_raise P rest).1, (until_raise P rest).2)
      end
  end.

(** The steps of [send] that reach outside the object. *)
Inductive Step := AttachText | AttachHtml | AttachFiles | CallServer.

Definition step_of (e : Event) : Step :=
  match e with
  | BodyAttach TextBody _ _ _ _ _ _ => AttachText
  | BodyAttach HTMLBody _ _ _ _ _ _ => AttachHtml
  | AttachmentsAttach _ _ => AttachFiles
  | Smtp _ => CallServer
  end.

(** The steps [get_message] sets out to make (lines 310, 322 and 334). *)
Definition planned_steps (o : EmailSender) (a : kw.args) : list Step :=
  (if has_text o a then [AttachText] else [])
  ++ (if has_html o a then [AttachHtml] else [])
  ++ (if truthy (kw.attachments a) then [AttachFiles] else []).


(** The object after its SMTP settings were assigned: host, port, password,
    use_starttls, cls_smtp and kws_smtp. *)
Definition with_smtp (host : string) (port : Z) (password : option string)
           (use_starttls : bool) (cls_smtp : smtp_class) (kws_smtp : gmap string pyval)
           (o : EmailSender) : EmailSender :=
  {| self.host := host;
     self.port := port;
     self.user_name := self.user_name o;
     self.password := password;
     self.sender := self.sender o;
     self.receivers := self.receivers o;
     self.cc := self.cc o;
     self.bcc := self.bcc o;
     self.subject := self.subject o;
     self.text := self.text o;
     self.html := self.html o;
     self.html_template := self.html_template o;
     self.text_template := self.text_template o;
     self.use_starttls := use_starttls;
     self.cls_smtp := cls_smtp;
     self.kws_smtp := kws_smtp;
     self.default_html_theme := self.default_html_theme o;
     self.default_text_theme := self.default_text_theme o;
     self.templates_html := self.templates_html o;
     self.templates_html_table := self.templates_html_table o;
     self.templates_text := self.templates_text o;
     self.templates_text_table := self.templates_text_table o;
     self.attachment_encoding := self.attachment_encoding o |}.

(** ** Concrete objects used to run the definitions *)

Definition demo_platform : Platform :=
  {| node := "build-01";
     getuser := Some "alice";
     now := λ n, (1700000000 + Z.of_nat n)%Z;
     address_refused := λ _ _, false;
     file_system_loader := λ path,
       if decide (path = "templates/html/table") then {[ "modest.html" := "<table>" ]}
       else if decide (path = "templates/text/table") then {[ "pandas.txt" := "|" ]}
       else if decide (path = "templates/html") then {[ "report.html" := "<h1>Report</h1>" ]}
       else ∅;
     (* a body that opens an expression and never closes it does not render *)
     render := λ _ template content _,
       match content, template with
       | Some "{{", _ => None
       | Some c, _ => Some c
       | None, Some t => Some t
       | None, None => Some ""
       end;
     render_table := λ _ _ _, Some "<table/>";
     make_cid := λ n, String (Ascii.ascii_of_nat (48 + n)) "@redmail";
     read_file := λ path, if decide (path = "/srv/report.txt") then Some "ok" else None;
     mime_types := {[ ".csv" := "text/csv"; ".txt" := "text/plain" ]};
     table_serializers := {[ ".csv" := λ t, "csv" ]};
     text_encoding := λ _, no_encoding;
     smtp_raises := λ _, None |}.

Definition demo_sender : EmailSender :=
  __init__ demo_platform "localhost" 0 (Some "robot@example.com") (Some "secret")
           SMTP true ∅.

Definition demo_world : World := {| this := demo_sender; trace := []; clock := 0 |}.

(** [get_message(text="Hello")] *)
Definition text_only_call : kw.args :=
  {| kw.subject := None; kw.sender := None; kw.receivers := None; kw.cc := None;
     kw.bcc := None; kw.html := None; kw.text := Some "Hello";
     kw.html_template := None; kw.text_template := None; kw.body_images := None;
     kw.body_tables := None; kw.body_params := None; kw.attachments := None |}.

(** [get_message(subject="Report", receivers=["you@example.com"],
    text="Hello", html="<p>Hello</p>")] *)
Definition both_bodies_call : kw.args :=
  {| kw.subject := Some "Report"; kw.sender := None;
     kw.receivers := Some (AddrList ["you@example.com"]); kw.cc := None;
     kw.bcc := None; kw.html := Some "<p>Hello</p>"; kw.text := Some "Hello";
     kw.html_template := None; kw.text_template := None; kw.body_images := None;
     kw.body_tables := None; kw.body_params := None; kw.attachments := None |}.

(** A sender whose default subject was set: [email.subject = "Weekly report"]. *)
Definition report_sender : EmailSender :=
  {| self.host := "localhost";
     self.port := 0;
     self.user_name := Some "robot@example.com";
     self.password := Some "secret";
     self.sender := None;
     self.receivers := None;
     self.cc := None;
     self.bcc := None;
     self.subject := Some "Weekly report";
     self.text := None;
     self.html := None;
     self.html_template := None;
     self.text_template := None;
     self.use_starttls := true;
     self.cls_smtp := SMTP;
     self.kws_smtp := ∅;
     self.default_html_theme := Some "modest.html";
     self.default_text_theme := Some "pandas.txt";
     self.templates_html := file_system_loader demo_platform "templates/html";
     self.templates_html_table := file_system_loader demo_platform "templates/html/table";
     self.templates_text := file_system_loader demo_platform "templates/text";
     self.templates_text_table := file_system_loader demo_platform "templates/text/table";
     self.attachment_encoding := "UTF-8" |}.

Definition report_world : World :=
  {| this := report_sender; trace := []; clock := 0 |}.

(** [get_message(subject="")] *)
Definition empty_subject_call : kw.args :=
  {| kw.subject := Some ""; kw.sender := None; kw.receivers := None; kw.cc := None;
     kw.bcc := None; kw.html := None; kw.text := None;
     kw.html_template := None; kw.text_template := None; kw.body_images := None;
     kw.body_tables := None; kw.body_params := None; kw.attachments := None |}.

(** What [both_bodies_call] composes on [demo_sender]. *)
Definition both_bodies_message : EmailMessage :=
  {| headers := [("from", HText "robot@example.com");
                 ("subject", HText "Report");
                 ("to", HList ["you@example.com"])];
     body := Some (Multipart alternative
                     [Leaf "text/plain" "Hello"; Leaf "text/html" "<p>Hello</p>"]) |}.

(** A table sent under a file name that no serializer knows. *)
Definition unsupported_call : kw.args :=
  kw.set_attachments (Some [("report.xyz", TableData
                               {| columns := ["dept"]; rows := []; n_grouping := 0 |})])
                     both_bodies_call.

(** The scenario of the spec: dept A, A, B grouped by dept. *)
Definition dept_table : TabularData :=
  {| columns := ["dept"; "name"];
     rows := [ {[ "dept" := SStr "A"; "name" := SStr "x" ]};
               {[ "dept" := SStr "A"; "name" := SStr "y" ]};
               {[ "dept" := SStr "B"; "name" := SStr "z" ]} ];
     n_grouping := 1 |}.

(** A server that refuses the message. *)
Definition rejecting_platform : Platform :=
  {| node := node demo_platform;
     getuser := getuser demo_platform;
     now := now demo_platform;
     address_refused := address_refused demo_platform;
     file_system_loader := file_system_loader demo_platform;
     render := render demo_platform;
     render_table := render_table demo_platform;
     make_cid := make_cid demo_platform;
     read_file := read_file demo_platform;
     mime_types := mime_types demo_platform;
     table_serializers := table_serializers demo_platform;
     text_encoding := text_encoding demo_platform;
     smtp_raises := λ c, match c with
                         | SmtpSendMessage _ => Some "550 rejected"
                         | _ => None
                         end |}.

(** The demo sender after [set_template_paths(text_table="/srv/empty")]. *)
Definition relocated_world : World :=
  (set_template_paths demo_platform None None None (Some "/srv/empty") demo_world).2.

(** [get_message(subject="Report", attachments={})] *)
Definition subject_only_call : kw.args :=
  kw.set_attachments (Some []) (kw.set_subject (Some "Report") kw.default).

(** [get_message(subject="Hi", text="Hello")] *)
Definition titled_text_call : kw.args :=
  kw.set_subject (Some "Hi") text_only_call.

(** [get_message(subject="Hi", text_template="welcome.txt")] *)
Definition unknown_template_call : kw.args :=
  kw.set_text_template (Some "welcome.txt") (kw.set_subject (Some "Hi") kw.default).

(** * Properties *)

(** ** Group spans *)

Example dept_spans :
  (λ i, Envs.get_span dept_table i 0) <$> [0; 1; 2]
  = [ {| is_group_start := true; span_length := 2 |};
      {| is_group_start := false; span_length := 0 |};
      {| is_group_start := true; span_length := 1 |} ]
  ∧ (λ i, Envs.is_last_group_row dept_table i 0) <$> [0; 1; 2] = [false; true; true].
Proof. split; vm_compute; reflexivity. Qed.

Section GroupSpans.

Import Envs.

Lemma span_at_get_span t i k :
  (let g := get_span t i k in if is_group_start g then span_length g else 0)
  = span_at (group_starts t k) i.
Proof.
  unfold get_span, span_at. simpl.
  destruct (group_starts t k !! i) as [[|]|]; reflexivity.
Qed.

Lemma span_at_cons b flags i : span_at (b :: flags) (S i) = span_at flags i.
Proof. reflexivity. Qed.

(** The spans of the group starts and the rows before the first start
    account for every flag. *)
Lemma spans_partition flags :
  sum_list (span_at flags <$> seq 0 (length flags)) + continued flags = length flags.
Proof.
  induction flags as [|b flags IH]; [reflexivity|].
  cbn [length seq fmap list_fmap sum_list].
  rewrite <- fmap_S_seq, <- list_fmap_compose.
  rewrite (list_fmap_ext _ (span_at flags) (seq 0 (length flags)))
    by (intros; apply span_at_cons).
  destruct b; unfold span_at at 1; cbn [lookup list_lookup drop continued];
    unfold Datatypes.id in *; rewrite ?drop_0; lia.
Qed.

Lemma scan_starts_length cols k prev rs :
  length (scan_starts cols k prev rs) = length rs.
Proof.
  revert prev. induction rs as [|r rs IH]; intros prev; simpl; [|rewrite IH]; reflexivity.
Qed.

Lemma group_starts_length t k : length (group_starts t k) = length (rows t).
Proof.
  unfold group_starts. destruct (decide _).
  - apply scan_starts_length.
  - apply length_replicate.
Qed.

(** The first row always starts a group. *)
Lemma group_starts_head t k : continued (group_starts t k) = 0.
Proof.
  unfold group_starts. destruct (decide _); destruct (rows t); reflexivity.
Qed.

(** C2: for every table and every column, grouping or not, the sum of
    [span_length] over the rows that [get_span] marks [is_group_start]
    equals the number of rows of the table. *)
Theorem span_total_rows (t : TabularData) (k : nat) :
  span_total t k = length (rows t).
Proof.
  unfold span_total.
  rewrite (list_fmap_ext _ (span_at (group_starts t k)) (seq 0 (length (rows t))))
    by (intros; apply span_at_get_span).
  rewrite <- (group_starts_length t k).
  pose proof (spans_partition (group_starts t k)) as H.
  rewrite group_starts_head in H. lia.
Qed.

End GroupSpans.

(** ** Running method bodies *)

Section Frames.

Context {A B : Type}.

Lemma bind_run (m : M A) (f : A → M B) (w : World) :
  (m ≫= f) w = match m w with
               | (Return a, w') => f a w'
               | (Raise e, w') => (Raise e, w')
               end.
Proof. reflexivity. Qed.

Lemma preserves_ret (a : A) : preserves_self (mret a : M A).
Proof. intros w. reflexivity. Qed.

Lemma preserves_raise (e : Exc) : preserves_self (raise e : M A).
Proof. intros w. reflexivity. Qed.

Lemma preserves_attr (f : EmailSender → A) : preserves_self (attr f).
Proof. intros w. reflexivity. Qed.

Lemma preserves_lift (o : outcome A) : preserves_self (lift o).
Proof. intros w. reflexivity. Qed.

Lemma preserves_bind (m : M A) (f : A → M B) :
  preserves_self m → (∀ a, preserves_self (f a)) → preserves_self (m ≫= f).
Proof.
  intros Hm Hf w. rewrite bind_run. specialize (Hm w).
  destruct (m w) as [[a|e] w1]; simpl in *; [|exact Hm].
  rewrite Hf. exact Hm.
Qed.

Lemma preserves_fmap (g : A → B) (m : M A) :
  preserves_self m → preserves_self (g <$> m).
Proof.
  intros Hm. apply preserves_bind; [exact Hm|]. intros a w. reflexivity.
Qed.

Lemma quiet_ret (a : A) : transport_free (mret a : M A).
Proof. intros w. exists []. split; [symmetry; apply app_nil_r | reflexivity]. Qed.

Lemma quiet_raise (e : Exc) : transport_free (raise e : M A).
Proof. intros w. exists []. split; [symmetry; apply app_nil_r | reflexivity]. Qed.

Lemma quiet_attr (f : EmailSender → A) : transport_free (attr f).
Proof. intros w. exists []. split; [symmetry; apply app_nil_r | reflexivity]. Qed.

Lemma quiet_lift (o : outcome A) : transport_free (lift o).
Proof. intros w. exists []. split; [symmetry; apply app_nil_r | reflexivity]. Qed.

Lemma quiet_bind (m : M A) (f : A → M B) :
  transport_free m → (∀ a, transport_free (f a)) → transport_free (m ≫= f).
Proof.
  intros Hm Hf w. rewrite bind_run. destruct (Hm w) as (evs & Ht & Hq).
  destruct (m w) as [[a|e] w1]; simpl in *; [|exists evs; auto].
  destruct (Hf a w1) as (evs' & Ht' & Hq').
  exists (evs ++ evs')%list. split.
  - rewrite Ht', Ht. symmetry. apply app_assoc.
  - rewrite forallb_app, Hq, Hq'. reflexivity.
Qed.

Lemma quiet_fmap (g : A → B) (m : M A) :
  transport_free m → transport_free (g <$> m).
Proof.
  intros Hm. apply quiet_bind; [exact Hm|]. intros a w.
  exists []. split; [symmetry; apply app_nil_r | reflexivity].
Qed.

End Frames.

Lemma preserves_emit (e : Event) : preserves_self (emit e).
Proof. intros w. reflexivity. Qed.

Lemma quiet_emit (e : Event) : is_transport e = false → transport_free (emit e).
Proof. intros He w. exists [e]. simpl. rewrite He. split; reflexivity. Qed.

Create HintDb frame.
#[global] Hint Resolve preserves_ret preserves_raise preserves_attr preserves_lift
  preserves_emit quiet_ret quiet_raise quiet_attr quiet_lift : frame.

(** Walks through a method body: every bind, branch and primitive. *)
Ltac frame :=
  repeat first
    [ progress intros
    | apply preserves_bind | apply preserves_fmap
    | apply quiet_bind | apply quiet_fmap
    | apply quiet_emit; reflexivity
    | solve [auto with frame]
    | match goal with
      | |- preserves_self (match ?x with _ => _ end) => destruct x
      | |- transport_free (match ?x with _ => _ end) => destruct x
      end ].

Section SenderFrames.

Context (P : Platform).

Lemma getuser_call_preserves : preserves_self (getuser_call P).
Proof. intros w. unfold getuser_call. destruct (getuser P); reflexivity. Qed.

Lemma getuser_call_quiet : transport_free (getuser_call P).
Proof.
  intros w. exists []. unfold getuser_call.
  destruct (getuser P); (split; [symmetry; apply app_nil_r | reflexivity]).
Qed.

Lemma datetime_now_preserves : preserves_self (datetime_now P).
Proof. intros w. reflexivity. Qed.

Lemma datetime_now_quiet : transport_free (datetime_now P).
Proof. intros w. exists []. split; [symmetry; apply app_nil_r | reflexivity]. Qed.

Lemma get_template_preserves env name : preserves_self (get_template env name).
Proof. unfold get_template. frame. Qed.

Lemma get_template_quiet env name : transport_free (get_template env name).
Proof. unfold get_template. frame. Qed.

Lemma get_message_preserves a : preserves_self (get_message P a).
Proof.
  unfold get_message, get_sender, get_receivers, get_cc, get_bcc,
    get_text_template, get_text_table_template, get_html_template,
    get_html_table_template, attach, get_text_params, get_html_params, get_params.
  pose proof get_template_preserves. pose proof getuser_call_preserves.
  pose proof datetime_now_preserves. frame.
Qed.

Lemma get_message_quiet a : transport_free (get_message P a).
Proof.
  unfold get_message, get_sender, get_receivers, get_cc, get_bcc,
    get_text_template, get_text_table_template, get_html_template,
    get_html_table_template, attach, get_text_params, get_html_params, get_params.
  pose proof get_template_quiet. pose proof getuser_call_quiet.
  pose proof datetime_now_quiet. frame.
Qed.

End SenderFrames.

(** ** Symbolic execution of a method call *)

(** The scrutinee that blocks the evaluation of a term. *)
Ltac find_scrut t :=
  match t with
  | match ?x with _ => _ end => find_scrut x
  | match ?x with _ => _ end => constr:(x)
  | ?f _ => find_scrut f
  end.

(** Runs the call in [H : m w = (r, w')] to its end, one case for every way
    through the method body; the choices made are left in the context. *)
Ltac exec_in H :=
  unfold send, send_message, connect, smtp, get_message, get_sender, get_receivers,
    get_cc, get_bcc, get_text_template, get_text_table_template, get_html_template,
    get_html_table_template, attach, get_template, get_text_params, get_html_params,
    get_params in H;
  cbv [mbind M_bind fmap M_fmap mret M_ret attr raise emit lift getuser_call
       datetime_now] in H;
  repeat (cbn [fst snd this trace clock] in H;
          lazymatch type of H with
          | ?t = _ => let x := find_scrut t in destruct x eqn:?; cbv beta iota in H
          end);
  simplify_eq.

Lemma py_or_None {A} `{Truthy A} (a b : option A) :
  py_or a b = None ↔ truthy a = false ∧ b = None.
Proof.
  unfold py_or. destruct a as [x|]; simpl.
  - destruct (truthy x) eqn:E; simpl; change (truthy (Some x)) with (truthy x);
      rewrite ?E; split; try intros [? ?]; try discriminate; auto.
  - split; [auto | intros [_ ?]; auto].
Qed.

Section Errors.

Context (P : Platform).

Lemma header_store_parse_raises name value e :
  header_store_parse P name value = Raise e →
  e = ValueError linefeed_message ∨ e = ValueError address_message.
Proof.
  unfold header_store_parse. destruct value as [|s|l]; try discriminate.
  destruct (multi_line s); [intros [= <-]; left; reflexivity|].
  destruct (address_refused P name s); [|discriminate].
  intros [= <-]. right. reflexivity.
Qed.

Lemma EmailMessage_setitem_raises name value msg e :
  EmailMessage_setitem P name value msg = Raise e →
  e = ValueError linefeed_message ∨ e = ValueError address_message.
Proof.
  unfold EmailMessage_setitem. cbv [mbind outcome_bind].
  destruct (header_store_parse P name value) eqn:E; [discriminate|].
  intros [= <-]. eapply header_store_parse_raises, E.
Qed.

(** [_create_body] raises nothing but the two errors of the email library. *)
Lemma create_body_raises subject sender receivers cc bcc e :
  _create_body P subject sender receivers cc bcc = Raise e →
  e = ValueError linefeed_message ∨ e = ValueError address_message.
Proof.
  unfold _create_body. cbv [mbind outcome_bind].
  repeat match goal with
         | |- context [EmailMessage_setitem P ?n ?v ?m] =>
             let E := fresh "E" in
             destruct (EmailMessage_setitem P n v m) eqn:E;
             [|intros [= <-]; eapply EmailMessage_setitem_raises, E]
         | |- context [if ?b then _ else _] => destruct b
         end;
    discriminate.
Qed.

Lemma header_store_parse_Return name value v :
  header_store_parse P name value = Return v → v = value.
Proof.
  unfold header_store_parse. destruct value as [|s|l]; try (intros [= <-]; reflexivity).
  destruct (multi_line s); [discriminate|].
  destruct (address_refused P name s); [discriminate|]. intros [= <-]. reflexivity.
Qed.

Lemma header_store_parse_accepted name s :
  accepted P name s = true → header_store_parse P name (HText s) = Return (HText s).
Proof.
  unfold accepted, header_store_parse.
  destruct (multi_line s); [discriminate|].
  destruct (address_refused P name s); [discriminate | reflexivity].
Qed.

Lemma EmailMessage_setitem_Return name value msg msg' :
  EmailMessage_setitem P name value msg = Return msg' → msg' = set_header name value msg.
Proof.
  unfold EmailMessage_setitem. cbv [mbind outcome_bind].
  destruct (header_store_parse P name value) eqn:E; [|discriminate].
  apply header_store_parse_Return in E as ->. intros [= <-]. reflexivity.
Qed.

(** When [_create_body] returns, it returns the message with every header
    stored as given. *)
Lemma create_body_Return subject sender receivers cc bcc msg :
  _create_body P subject sender receivers cc bcc = Return msg →
  msg = created_message subject sender receivers cc bcc.
Proof.
  unfold _create_body, created_message. cbv [mbind outcome_bind].
  repeat match goal with
         | |- context [EmailMessage_setitem P ?n ?v ?m] =>
             let E := fresh "E" in
             destruct (EmailMessage_setitem P n v m) eqn:E;
             [apply EmailMessage_setitem_Return in E as ->|discriminate]
         | |- context [if ?b then _ else _] => destruct b
         end;
    intros [= <-]; reflexivity.
Qed.

Lemma EmailMessage_setitem_accepted name value msg :
  value_accepted P name value = true →
  EmailMessage_setitem P name value msg = Return (set_header name value msg).
Proof.
  unfold EmailMessage_setitem. destruct value as [|s|l]; intros H; try reflexivity.
  cbn [value_accepted] in H. rewrite (header_store_parse_accepted _ _ H). reflexivity.
Qed.

(** [_create_body] returns when the email library accepts the sender, the
    subject and the recipients that are set. *)
Lemma create_body_accepted subject sender receivers cc bcc :
  value_accepted P "from" (header_of_str sender) = true →
  accepted P "subject" subject = true →
  (truthy receivers = true →
   value_accepted P "to" (header_of_recipients receivers) = true) →
  (truthy cc = true → value_accepted P "cc" (header_of_recipients cc) = true) →
  (truthy bcc = true → value_accepted P "bcc" (header_of_recipients bcc) = true) →
  _create_body P subject sender receivers cc bcc
  = Return (created_message subject sender receivers cc bcc).
Proof.
  intros Hfrom Hsubject Hto Hcc Hbcc.
  unfold _create_body, created_message. cbv [mbind outcome_bind].
  rewrite (EmailMessage_setitem_accepted _ _ _ Hfrom).
  rewrite (EmailMessage_setitem_accepted "subject" (HText subject) _ Hsubject).
  destruct (truthy receivers);
    [rewrite (EmailMessage_setitem_accepted _ _ _ (Hto eq_refl))|];
    (destruct (truthy cc);
     [rewrite (EmailMessage_setitem_accepted _ _ _ (Hcc eq_refl))|]);
    (destruct (truthy bcc);
     [rewrite (EmailMessage_setitem_accepted _ _ _ (Hbcc eq_refl))|]);
    reflexivity.
Qed.

Lemma embed_all_raises registry images e :
  embed_all P registry images = Raise e → is_composition_error e = true.
Proof.
  revert registry. induction images as [|[key img] rest IH]; intros registry; simpl.
  - discriminate.
  - destruct (assoc key registry); [destruct (decide _)|]; eauto.
    intros [= <-]. reflexivity.
Qed.

Lemma render_tables_raises kind tt tables params e :
  render_tables P kind tt tables params = Raise e → is_composition_error e = true.
Proof.
  revert params. induction tables as [|[key t] rest IH]; intros params; simpl.
  - discriminate.
  - destruct (render_table P kind tt t); eauto. intros [= <-]. reflexivity.
Qed.

Lemma Body_attach_raises kind template tt msg content images tables params e :
  Body_attach P kind template tt msg content images tables params = Raise e →
  is_composition_error e = true.
Proof.
  unfold Body_attach. cbv [mbind outcome_bind].
  destruct (embed_all _ _ _) eqn:E1; [|intros [= <-]; eauto using embed_all_raises].
  destruct (render_tables _ _ _ _ _) eqn:E2;
    [|intros [= <-]; eauto using render_tables_raises].
  destruct (render _ _ _ _ _); [discriminate|]. intros [= <-]. reflexivity.
Qed.

Lemma resolve_all_raises atts e :
  resolve_all P atts = Raise e → is_composition_error e = true.
Proof.
  induction atts as [|[name input] rest IH]; simpl; [discriminate|].
  cbv [mbind outcome_bind].
  destruct (resolve P name input) eqn:E1.
  - destruct (resolve_all P rest); [discriminate|]. intros [= <-]. auto.
  - intros [= <-]. unfold resolve in E1.
    destruct input; try discriminate.
    + destruct (read_file P path); [discriminate|]. injection E1 as <-. reflexivity.
    + destruct (table_serializers P !! _); [discriminate|].
      injection E1 as <-. reflexivity.
Qed.

Lemma Attachments_attach_raises atts msg e :
  Attachments_attach P atts msg = Raise e → is_composition_error e = true.
Proof.
  unfold Attachments_attach. cbv [mbind outcome_bind].
  destruct (resolve_all P atts) eqn:E; [discriminate|].
  intros [= <-]. eauto using resolve_all_raises.
Qed.

End Errors.

(** ** The missing subject *)

(** C1, the claim as it is written fails: a call that supplies a text body
    and no subject raises the error of line 300. *)
Lemma empty_message_counterexample :
  kw.text text_only_call = Some "Hello"
  ∧ (get_message demo_platform text_only_call demo_world).1
    = Raise (ValueError "Email must have a subject").
Proof. split; vm_compute; reflexivity. Qed.

(** C1, amended: [get_message] raises the missing-subject error exactly when
    the call supplies no non-empty subject and the object stores no default
    subject, whatever text, HTML or attachments are supplied; with a subject
    from either place it never raises this error. *)
Theorem missing_subject_iff (P : Platform) (a : kw.args) (w : World) :
  (get_message P a w).1 = Raise (ValueError "Email must have a subject")
  ↔ truthy (kw.subject a) = false ∧ self.subject (this w) = None.
Proof.
  rewrite <- py_or_None.
  destruct (get_message P a w) as [r w'] eqn:Hrun.
  exec_in Hrun; simpl; split; intros Hx;
    try discriminate Hx; try reflexivity;
    first
      [ apply Attachments_attach_raises in Hx; discriminate Hx
      | injection Hx as ->;
        match goal with
        | H : Body_attach _ _ _ _ _ _ _ _ _ = Raise _ |- _ =>
            apply Body_attach_raises in H; discriminate H
        | H : _create_body _ _ _ _ _ _ = Raise _ |- _ =>
            apply create_body_raises in H as [H|H]; discriminate H
        end ].
Qed.

(** ** The structure of the composed message *)

Section Structure.

Context (P : Platform).

Lemma create_body_body subject sender receivers cc bcc :
  body (created_message subject sender receivers cc bcc) = None.
Proof.
  unfold created_message.
  destruct (truthy receivers), (truthy cc), (truthy bcc); reflexivity.
Qed.

Lemma Body_attach_text template tt msg content tables params msg' :
  Body_attach P TextBody template tt msg content None tables params = Return msg' →
  ∃ out, msg' = add_alternative (Leaf "text/plain" out) msg.
Proof.
  unfold Body_attach. cbv [mbind outcome_bind]. simpl.
  destruct (render_tables _ _ _ _ _); [|discriminate].
  simpl. destruct (render _ _ _ _ _) as [out|]; [|discriminate].
  intros [= <-]. exists out. reflexivity.
Qed.

Lemma Body_attach_html template tt msg content images tables params msg' :
  Body_attach P HTMLBody template tt msg content images tables params = Return msg' →
  ∃ part, is_html_part part = true ∧ msg' = add_alternative part msg.
Proof.
  unfold Body_attach. cbv [mbind outcome_bind].
  destruct (embed_all _ _ _) as [registry|]; [|discriminate].
  destruct (render_tables _ _ _ _ _); [|discriminate].
  destruct (render _ _ _ _ _) as [out|]; [|discriminate].
  intros [= <-]. eexists. split; [|reflexivity].
  destruct registry; reflexivity.
Qed.

Lemma Attachments_attach_body atts msg msg' :
  Attachments_attach P atts msg = Return msg' →
  ∃ parts, msg' = {| headers := headers msg;
                     body := Some (Multipart mixed
                               (option_list (body msg) ++ (AttachmentPart <$> parts))) |}.
Proof.
  unfold Attachments_attach. cbv [mbind outcome_bind].
  destruct (resolve_all P atts) as [parts|]; [|discriminate].
  intros [= <-]. exists parts. reflexivity.
Qed.

(** C3: when a call has a text body and an HTML body (a content or a
    template for each, from the arguments or the stored defaults) and
    composition succeeds, the body of the message is a
    multipart/alternative of exactly two parts, the text part first and the
    HTML part second. *)
Theorem text_then_html_alternative (a : kw.args) (w w' : World) (msg : EmailMessage) :
  has_text (this w) a = true →
  has_html (this w) a = true →
  get_message P a w = (Return msg, w') →
  ∃ t h, body_part msg = Some (Multipart alternative [t; h])
         ∧ is_text_part t = true ∧ is_html_part h = true.
Proof.
  unfold has_text, has_html. intros Ht Hh Hrun.
  exec_in Hrun; try congruence;
    repeat match goal with
           | H : _create_body _ _ _ _ _ _ = Return _ |- _ =>
               apply create_body_Return in H as ->
           | H : Body_attach _ TextBody _ _ _ _ _ _ _ = Return _ |- _ =>
               apply Body_attach_text in H as [out ->]
           | H : Body_attach _ HTMLBody _ _ _ _ _ _ _ = Return _ |- _ =>
               apply Body_attach_html in H as (part & Hpart & ->)
           | H : Attachments_attach _ _ _ = Return _ |- _ =>
               apply Attachments_attach_body in H as (parts & ->)
           end;
    unfold body_part; simpl; rewrite create_body_body; simpl;
    eexists _, _; (split; [reflexivity|]); (split; [reflexivity | assumption]).
Qed.

End Structure.

(** ** Composition comes before transport *)

Section Transport.

Context (P : Platform).

(** Everything [send_message] does is a call on the transport, and the only
    message it hands over is its argument. *)
Lemma send_message_wire msg w :
  ∃ wire, trace (send_message P msg w).2 = (trace w ++ wire)%list
          ∧ forallb is_transport wire = true
          ∧ ∀ m, Smtp (SmtpSendMessage m) ∈ wire → m = msg.
Proof.
  destruct (send_message P msg w) as [r w2] eqn:Hrun.
  exec_in Hrun; simpl; rewrite <- ?app_assoc; simpl;
    eexists; (split; [reflexivity|]); (split; [reflexivity|]);
    intros m Hm;
    repeat (apply elem_of_cons in Hm as [Hm|Hm]; [congruence|]);
    apply elem_of_nil in Hm; contradiction.
Qed.

(** C4: in [send], the events of composition come first and none of them
    is a call on the transport; if composition raises, [send] stops there
    with the same exception and the same trace, so the transport was never
    called; if it returns a message, only then do transport calls follow,
    and the message handed to the server is the composed one. *)
Theorem send_composes_before_transport (a : kw.args) (w : World) :
  ∃ composed,
    trace (get_message P a w).2 = (trace w ++ composed)%list
    ∧ forallb (λ e, negb (is_transport e)) composed = true
    ∧ match (get_message P a w).1 with
      | Raise e => send P a w = (Raise e, (get_message P a w).2)
      | Return msg =>
          ∃ wire, trace (send P a w).2 = (trace w ++ composed ++ wire)%list
                  ∧ forallb is_transport wire = true
                  ∧ ∀ m, Smtp (SmtpSendMessage m) ∈ wire → m = msg
      end.
Proof.
  destruct (get_message_quiet P a w) as (composed & Htrace & Hquiet).
  exists composed. split; [exact Htrace|]. split; [exact Hquiet|].
  unfold send. rewrite bind_run.
  destruct (get_message P a w) as [[msg|e] w1]; simpl in *; [|reflexivity].
  destruct (send_message_wire msg w1) as (wire & Hwire & Hall & Hmsg).
  exists wire. rewrite bind_run.
  destruct (send_message P msg w1) as [[[]|e] w2]; simpl in *;
    rewrite Hwire, Htrace, <- app_assoc; auto.
Qed.

End Transport.

(** ** Arguments and stored defaults *)

Lemma py_or_chosen {A} `{Truthy A} (arg stored : option A) :
  chosen arg stored (py_or arg stored).
Proof. unfold chosen, py_or. split; intros ->; reflexivity. Qed.

Lemma py_or_chosen_sender (arg stored user : option string) :
  chosen_sender arg stored user (py_or (py_or arg stored) user).
Proof.
  unfold chosen_sender, py_or. repeat split.
  - intros Ha. rewrite !Ha. reflexivity.
  - intros Ha Hs. rewrite Ha, Hs. reflexivity.
  - intros Ha Hs. rewrite Ha, Hs. reflexivity.
Qed.

Lemma create_body_headers subject sender receivers cc bcc :
  let m := created_message subject sender receivers cc bcc in
  get_header "subject" m = Some (HText subject)
  ∧ get_header "from" m = Some (header_of_str sender)
  ∧ get_header "to" m
    = (if truthy receivers then Some (header_of_recipients receivers) else None)
  ∧ get_header "cc" m = (if truthy cc then Some (header_of_recipients cc) else None)
  ∧ get_header "bcc" m = (if truthy bcc then Some (header_of_recipients bcc) else None).
Proof.
  unfold created_message.
  destruct (truthy receivers), (truthy cc), (truthy bcc); repeat split; reflexivity.
Qed.

Lemma get_header_add_alternative name part msg :
  get_header name (add_alternative part msg) = get_header name msg.
Proof. reflexivity. Qed.

(** C5, the claim as it is written fails: the call supplies the subject [""]
    and no sender, the object stores another subject and no sender; the
    message carries the stored subject, not the supplied one, and its sender
    is the user name, not the stored default. *)
Lemma supplied_or_default_counterexample :
  kw.subject empty_subject_call = Some ""
  ∧ kw.sender empty_subject_call = None
  ∧ self.sender report_sender = None
  ∧ (get_message demo_platform empty_subject_call report_world).1
    = Return {| headers := [("from", HText "robot@example.com");
                            ("subject", HText "Weekly report")];
                body := None |}.
Proof. repeat split; vm_compute; reflexivity. Qed.

Section Defaults.

Context (P : Platform).

(** C5, amended: for each of subject, receivers, cc, bcc, text, html,
    text_template and html_template, a composed message uses the argument
    of the call when it is non-empty and the stored default of the object
    otherwise (an argument that is [None], an empty string or an empty
    list counts as not supplied); the sender is chosen the same way, with
    the user name of the object behind an empty stored default. The
    headers carry the chosen subject, sender, receivers, cc and bcc, and
    each body is attached with the chosen content and the template that
    the chosen name loads. *)
Theorem chosen_values_used (a : kw.args) (w w' : World) (msg : EmailMessage) :
  get_message P a w = (Return msg, w') →
  ∃ subject sender receivers cc bcc text html text_template html_template,
    chosen (kw.subject a) (self.subject (this w)) subject
    ∧ chosen_sender (kw.sender a) (self.sender (this w))
                    (self.user_name (this w)) sender
    ∧ chosen (kw.receivers a) (self.receivers (this w)) receivers
    ∧ chosen (kw.cc a) (self.cc (this w)) cc
    ∧ chosen (kw.bcc a) (self.bcc (this w)) bcc
    ∧ chosen (kw.text a) (self.text (this w)) text
    ∧ chosen (kw.html a) (self.html (this w)) html
    ∧ chosen (kw.text_template a) (self.text_template (this w)) text_template
    ∧ chosen (kw.html_template a) (self.html_template (this w)) html_template
    ∧ get_header "subject" msg = HText <$> subject
    ∧ get_header "from" msg = Some (header_of_str sender)
    ∧ get_header "to" msg
      = (if truthy receivers then Some (header_of_recipients receivers) else None)
    ∧ get_header "cc" msg = (if truthy cc then Some (header_of_recipients cc) else None)
    ∧ get_header "bcc" msg
      = (if truthy bcc then Some (header_of_recipients bcc) else None)
    ∧ ∃ evs,
        trace w' = (trace w ++ evs)%list
        ∧ (∀ kind template table_template content images tables params,
             BodyAttach kind template table_template content images tables params
               ∈ evs →
             match kind with
             | TextBody =>
                 content = text
                 ∧ template = text_template ≫= (λ n, self.templates_text (this w) !! n)
             | HTMLBody =>
                 content = html
                 ∧ template = html_template ≫= (λ n, self.templates_html (this w) !! n)
             end)
        ∧ (is_not_None text || is_not_None text_template = true →
           ∃ template table_template images tables params,
             BodyAttach TextBody template table_template text images tables params
               ∈ evs)
        ∧ (is_not_None html || is_not_None html_template = true →
           ∃ template table_template images tables params,
             BodyAttach HTMLBody template table_template html images tables params
               ∈ evs).
Proof.
  intros Hrun.
  exists (py_or (kw.subject a) (self.subject (this w))),
    (py_or (py_or (kw.sender a) (self.sender (this w))) (self.user_name (this w))),
    (py_or (kw.receivers a) (self.receivers (this w))),
    (py_or (kw.cc a) (self.cc (this w))),
    (py_or (kw.bcc a) (self.bcc (this w))),
    (py_or (kw.text a) (self.text (this w))),
    (py_or (kw.html a) (self.html (this w))),
    (py_or (kw.text_template a) (self.text_template (this w))),
    (py_or (kw.html_template a) (self.html_template (this w))).
  do 9 (split; [first [apply py_or_chosen | apply py_or_chosen_sender]|]).
  exec_in Hrun;
    repeat match goal with
           | H : _create_body _ _ _ _ _ _ = Return _ |- _ =>
               apply create_body_Return in H as ->
           | H : Body_attach _ TextBody _ _ _ _ _ _ _ = Return _ |- _ =>
               apply Body_attach_text in H as [out ->]
           | H : Body_attach _ HTMLBody _ _ _ _ _ _ _ = Return _ |- _ =>
               apply Body_attach_html in H as (part & Hpart & ->)
           | H : Attachments_attach _ _ _ = Return _ |- _ =>
               apply Attachments_attach_body in H as (parts & ->)
           end;
    match goal with
    | |- context [created_message ?s ?f ?r ?c ?b] =>
        destruct (create_body_headers s f r c b) as (Hs & Hf & Hr & Hc & Hb)
    end;
    do 5 (split; [assumption|]);
    simpl; rewrite <- ?app_assoc; simpl;
    eexists; (split; [first [reflexivity | symmetry; apply app_nil_r]|]);
    (split; [|split]).
  all: try (intros kind template table_template content images tables params Hin;
            repeat (apply elem_of_cons in Hin as [Hin|Hin];
                    [try discriminate Hin; injection Hin as -> -> -> -> -> -> ->;
                     simpl; split; congruence|]);
            apply elem_of_nil in Hin; contradiction).
  all: intros Hpresent; simpl in *; try congruence.
  all: do 5 eexists;
    solve [repeat first [apply list_elem_of_here | apply list_elem_of_further]].
Qed.

End Defaults.

(** ** Template parameters *)

Section Params.

Context (P : Platform).

Lemma update_error_marker kind sender user t :
  update {[ "node" := VStr (node P); "user" := VStr user; "now" := VDatetime t;
            "sender" := VEmailAddress sender ]}
         {[ "error" := error_marker kind ]}
  = implicit_variables P kind sender user t.
Proof.
  unfold update, implicit_variables.
  apply map_eq. intros k. rewrite lookup_union.
  repeat (rewrite lookup_insert; case_decide; subst; simpl);
    rewrite ?lookup_singleton, ?lookup_empty; repeat case_decide; subst;
    simpl; try reflexivity; try congruence.
Qed.

Lemma update_extra (params : gmap string pyval) extra :
  match extra with
  | Some e => if truthy e then update params e else params
  | None => params
  end = default ∅ extra ∪ params.
Proof.
  destruct extra as [e|]; simpl.
  - unfold truthy, gmap_truthy. case_bool_decide; simpl; [subst|reflexivity].
    symmetry. apply (left_id_L ∅ (∪)).
  - symmetry. apply (left_id_L ∅ (∪)).
Qed.

(** What [get_text_params] and [get_html_params] do: without a user name
    they raise, otherwise they read the clock once and return the implicit
    variables with the extra ones on top. *)
Lemma get_text_params_run extra sender w :
  get_text_params P extra sender w
  = match getuser P with
    | Some user =>
        (Return (default ∅ extra
                 ∪ implicit_variables P TextBody sender user (now P (clock w))),
         {| this := this w; trace := trace w; clock := S (clock w) |})
    | None => (Raise GetuserError, w)
    end.
Proof.
  unfold get_text_params, get_params, getuser_call, datetime_now.
  cbv [mbind M_bind mret M_ret]. destruct (getuser P) as [user|]; [|reflexivity].
  cbn [this trace clock].
  rewrite (update_error_marker TextBody), update_extra. reflexivity.
Qed.

Lemma get_html_params_run extra sender w :
  get_html_params P extra sender w
  = match getuser P with
    | Some user =>
        (Return (default ∅ extra
                 ∪ implicit_variables P HTMLBody sender user (now P (clock w))),
         {| this := this w; trace := trace w; clock := S (clock w) |})
    | None => (Raise GetuserError, w)
    end.
Proof.
  unfold get_html_params, get_params, getuser_call, datetime_now.
  cbv [mbind M_bind mret M_ret]. destruct (getuser P) as [user|]; [|reflexivity].
  cbn [this trace clock].
  rewrite (update_error_marker HTMLBody), update_extra. reflexivity.
Qed.

(** The parameters of every body that a call attaches, whether the call
    goes on to return or to raise. *)
Lemma get_message_params a w :
  ∃ evs, trace (get_message P a w).2 = (trace w ++ evs)%list
    ∧ ∀ kind template table_template content images tables params,
        BodyAttach kind template table_template content images tables params ∈ evs →
        ∃ user,
          getuser P = Some user
          ∧ params = default ∅ (kw.body_params a)
                     ∪ implicit_variables P kind
                         (py_or (py_or (kw.sender a) (self.sender (this w)))
                                (self.user_name (this w)))
                         user
                         (now P (clock w + earlier_readings (this w) a kind)).
Proof.
  unfold earlier_readings, has_text.
  destruct (get_message P a w) as [r w'] eqn:Hrun.
  exec_in Hrun; cbn [fst snd trace this]; rewrite <- ?app_assoc; cbn [app];
    eexists; (split; [first [reflexivity | symmetry; apply app_nil_r]|]);
    intros kind template table_template content images tables params Hin;
    repeat (apply elem_of_cons in Hin as [Hin|Hin];
            [try discriminate Hin; injection Hin as -> -> -> -> -> -> ->;
             eexists; (split; [reflexivity|]);
             rewrite ?Nat.add_0_r, ?Nat.add_1_r;
             lazymatch goal with
             | |- context [VError "text"] => rewrite (update_error_marker TextBody)
             | |- _ => rewrite (update_error_marker HTMLBody)
             end;
             rewrite update_extra; reflexivity|]);
    apply elem_of_nil in Hin; contradiction.
Qed.



(** C10: a key of the body_params of a call has the value the caller gave
    it in the HTML and in the text parameter set, also when it is one of
    node, user, now, sender and error; and so in the parameters of every
    body the call attaches. (The parameter sets are those the two methods
    return; they return unless there is no user name to put in.) *)
Theorem body_params_override (extra : gmap string pyval) (k : string) (v : pyval) :
  extra !! k = Some v →
  (∀ sender w,
      match (get_html_params P (Some extra) sender w).1 with
      | Return params => params !! k = Some v
      | Raise _ => getuser P = None
      end
      ∧ match (get_text_params P (Some extra) sender w).1 with
        | Return params => params !! k = Some v
        | Raise _ => getuser P = None
        end)
  ∧ ∀ a w, kw.body_params a = Some extra →
      ∃ evs, trace (get_message P a w).2 = (trace w ++ evs)%list
        ∧ ∀ kind template table_template content images tables params,
            BodyAttach kind template table_template content images tables params
              ∈ evs →
            params !! k = Some v.
Proof.
  intros Hk. split.
  - intros sender w. rewrite get_html_params_run, get_text_params_run.
    destruct (getuser P); cbn [fst default]; [|split; reflexivity].
    split; apply lookup_union_Some_l; exact Hk.
  - intros a w Hextra.
    destruct (get_message_params a w) as (evs & Htrace & Hparams).
    exists evs. split; [exact Htrace|].
    intros kind template table_template content images tables params Hin.
    destruct (Hparams _ _ _ _ _ _ _ Hin) as (user & _ & ->).
    rewrite Hextra. simpl. apply lookup_union_Some_l. exact Hk.
Qed.

End Params.

(** ** The stored defaults are read, never written *)

(** C7: [get_message] leaves the composing object as it found it: after the
    call, whether it returned or raised and whatever arguments it was given,
    every attribute of the object has the value it had before. *)
Theorem get_message_keeps_defaults (P : Platform) (a : kw.args) (w : World) :
  this (get_message P a w).2 = this w.
Proof. apply get_message_preserves. Qed.

(** By contrast, [set_template_paths] does write to the object. *)
Example set_template_paths_writes :
  self.templates_html
    (this (set_template_paths demo_platform (Some "templates/text") None None None
                              demo_world).2)
  ≠ self.templates_html (this demo_world).
Proof. vm_compute. discriminate. Qed.

(** ** The sender *)

Section SenderAddress.

Context (P : Platform).

Lemma get_message_from a w w' msg :
  get_message P a w = (Return msg, w') →
  get_header "from" msg
  = Some (header_of_str (py_or (py_or (kw.sender a) (self.sender (this w)))
                               (self.user_name (this w)))).
Proof.
  intros Hrun.
  exec_in Hrun;
    repeat match goal with
           | H : _create_body _ _ _ _ _ _ = Return _ |- _ =>
               apply create_body_Return in H as ->
           | H : Body_attach _ TextBody _ _ _ _ _ _ _ = Return _ |- _ =>
               apply Body_attach_text in H as [out ->]
           | H : Body_attach _ HTMLBody _ _ _ _ _ _ _ = Return _ |- _ =>
               apply Body_attach_html in H as (part & Hpart & ->)
           | H : Attachments_attach _ _ _ = Return _ |- _ =>
               apply Attachments_attach_body in H as (parts & ->)
           end;
    match goal with
    | |- context [created_message ?s ?f ?r ?c ?b] =>
        destruct (create_body_headers s f r c b) as (_ & Hf & _)
    end;
    exact Hf.
Qed.

(** C8: the sender of a call is its sender argument when that is
    non-empty, otherwise the sender attribute of the object when that is
    non-empty, otherwise the user name the object was constructed with;
    this is the from-address of the composed message, so an object on
    which no sender was ever set composes messages from its user name: a
    call with only a subject returns such a message whenever the email
    library accepts the subject and the user name as header values (each is
    one line and not refused by the header factory). *)
Theorem sender_fallback :
  (∀ sender w,
      get_sender sender w
      = (Return (if truthy sender then sender
                 else if truthy (self.sender (this w)) then self.sender (this w)
                      else self.user_name (this w)), w))
  ∧ (∀ a w w' msg,
        get_message P a w = (Return msg, w') →
        get_header "from" msg
        = Some (header_of_str
                  (if truthy (kw.sender a) then kw.sender a
                   else if truthy (self.sender (this w)) then self.sender (this w)
                        else self.user_name (this w))))
  ∧ (∀ host port user password cls tls kwargs subject t n,
        truthy subject = true →
        accepted P "subject" subject = true →
        accepted P "from" user = true →
        get_message P (kw.set_subject (Some subject) kw.default)
                    {| this := __init__ P host port (Some user) password cls tls kwargs;
                       trace := t; clock := n |}
        = (Return {| headers := [("from", HText user); ("subject", HText subject)];
                     body := None |},
           {| this := __init__ P host port (Some user) password cls tls kwargs;
              trace := t; clock := n |})).
Proof.
  assert (∀ a b c : option string,
             py_or (py_or a b) c
             = if truthy a then a else if truthy b then b else c) as Hor.
  { intros a b c. unfold py_or. destruct (truthy a) eqn:Ha; rewrite ?Ha; reflexivity. }
  split; [|split].
  - intros sender w. unfold get_sender.
    cbv [mbind M_bind mret M_ret attr]. rewrite Hor. reflexivity.
  - intros a w w' msg Hrun. rewrite <- Hor. eapply get_message_from, Hrun.
  - intros host port user password cls tls kwargs subject t n Hs Hsubject Huser.
    unfold get_message, get_sender, get_receivers, get_cc, get_bcc.
    cbv [mbind M_bind mret M_ret attr raise lift]. simpl.
    unfold py_or at 1. change (truthy (Some subject)) with (truthy subject).
    rewrite Hs.
    change (py_or (py_or None None) (Some user)) with (Some user).
    change (py_or (A:=addrs) None None) with (@None addrs).
    rewrite create_body_accepted by (try assumption; discriminate).
    reflexivity.
Qed.

End SenderAddress.

(** ** Empty strings *)


(** ** The properties at concrete calls *)

(** Two grouping columns: the inner column starts a group wherever the outer
    one does. *)
Example nested_spans :
  let t := {| columns := ["dept"; "team"; "name"];
              rows := [ {[ "dept" := SStr "A"; "team" := SStr "t"; "name" := SStr "x" ]};
                        {[ "dept" := SStr "A"; "team" := SStr "t"; "name" := SStr "y" ]};
                        {[ "dept" := SStr "B"; "team" := SStr "t" ]};
                        {[ "dept" := SStr "B"; "name" := SStr "z" ]} ];
              n_grouping := 2 |} in
  (λ i, span_length (Envs.get_span t i 0)) <$> [0; 1; 2; 3] = [2; 0; 2; 0]
  ∧ (λ i, span_length (Envs.get_span t i 1)) <$> [0; 1; 2; 3] = [2; 0; 1; 1]
  ∧ (λ i, span_length (Envs.get_span t i 2)) <$> [0; 1; 2; 3] = [1; 1; 1; 1].
Proof. repeat split; vm_compute; reflexivity. Qed.

(** Only a text body: the message is the single text part. *)
Example text_only_message :
  (get_message demo_platform (kw.set_subject (Some "Hi") text_only_call) demo_world).1
  = Return {| headers := [("from", HText "robot@example.com"); ("subject", HText "Hi")];
              body := Some (Leaf "text/plain" "Hello") |}.
Proof. vm_compute. reflexivity. Qed.

(** A successful [send]: two bodies are attached, then the server is
    connected, logged into and given the composed message. *)
Example send_trace :
  (λ e, match e with
        | BodyAttach kind _ _ _ _ _ _ => inl kind
        | AttachmentsAttach _ _ => inl TextBody
        | Smtp c => inr c
        end) <$> trace (send demo_platform both_bodies_call demo_world).2
  = [ inl TextBody; inl HTMLBody;
      inr (SmtpInit SMTP "localhost" 0 ∅);
      inr SmtpStarttls;
      inr (SmtpLogin (Some "robot@example.com") (Some "secret"));
      inr (SmtpSendMessage both_bodies_message);
      inr SmtpQuit ].
Proof. vm_compute. reflexivity. Qed.

(** The scenario of the spec: a table attached as [report.xyz] raises before
    any call on the transport. *)
Example unsupported_attachment_aborts :
  (send demo_platform unsupported_call demo_world).1
  = Raise (UnsupportedAttachmentFormat "report.xyz")
  ∧ filter (λ e, is_transport e = true)
           (trace (send demo_platform unsupported_call demo_world).2) = [].
Proof. split; vm_compute; reflexivity. Qed.

(** The call with both bodies on the demo sender. *)
Lemma text_then_html_witness :
  has_text demo_sender both_bodies_call = true
  ∧ has_html demo_sender both_bodies_call = true
  ∧ (get_message demo_platform both_bodies_call demo_world).1 = Return both_bodies_message
  ∧ ∃ t h, body_part both_bodies_message = Some (Multipart alternative [t; h])
           ∧ is_text_part t = true ∧ is_html_part h = true.
Proof.
  split; [reflexivity|]. split; [reflexivity|]. split; [vm_compute; reflexivity|].
  apply (text_then_html_alternative demo_platform both_bodies_call demo_world
           (get_message demo_platform both_bodies_call demo_world).2
           both_bodies_message).
  - reflexivity.
  - reflexivity.
  - vm_compute. reflexivity.
Defined.

(** The same call: the supplied subject, and the user name as sender. *)
Lemma chosen_values_witness :
  (get_message demo_platform both_bodies_call demo_world).1 = Return both_bodies_message
  ∧ get_header "subject" both_bodies_message = Some (HText "Report")
  ∧ get_header "from" both_bodies_message = Some (HText "robot@example.com").
Proof.
  split; [vm_compute; reflexivity|].
  destruct (chosen_values_used demo_platform both_bodies_call demo_world
              (get_message demo_platform both_bodies_call demo_world).2
              both_bodies_message)
    as (subject & sender & _ & _ & _ & _ & _ & _ & _
        & [Hsubject _] & (_ & _ & Hsender) & _ & _ & _ & _ & _ & _ & _
        & Hs & Hf & _).
  - vm_compute. reflexivity.
  - rewrite Hs, Hf, (Hsubject eq_refl), (Hsender eq_refl eq_refl). split; reflexivity.
Defined.


(** A fresh object with a user name and a call with a subject only. *)
Lemma sender_fallback_witness :
  truthy "Report" = true
  ∧ accepted demo_platform "subject" "Report" = true
  ∧ accepted demo_platform "from" "robot@example.com" = true
  ∧ (get_message demo_platform (kw.set_subject (Some "Report") kw.default) demo_world).1
    = Return {| headers := [("from", HText "robot@example.com");
                            ("subject", HText "Report")];
                body := None |}.
Proof.
  do 3 (split; [reflexivity|]).
  unfold demo_world, demo_sender.
  rewrite (proj2 (proj2 (sender_fallback demo_platform))
             "localhost" 0%Z "robot@example.com" (Some "secret") SMTP true ∅ "Report" []
             0 eq_refl eq_refl eq_refl).
  reflexivity.
Defined.


(** The caller overrides the error marker. *)
Lemma body_params_override_witness :
  ({[ "error" := VStr "n/a"; "greeting" := VStr "Hi" ]} : gmap string pyval) !! "error"
  = Some (VStr "n/a")
  ∧ match (get_html_params demo_platform
             (Some {[ "error" := VStr "n/a"; "greeting" := VStr "Hi" ]})
             (Some "me@example.com") demo_world).1 with
    | Return params => params !! "error" = Some (VStr "n/a")
    | Raise _ => getuser demo_platform = None
    end
  ∧ match (get_text_params demo_platform
             (Some {[ "error" := VStr "n/a"; "greeting" := VStr "Hi" ]})
             (Some "me@example.com") demo_world).1 with
    | Return params => params !! "error" = Some (VStr "n/a")
    | Raise _ => getuser demo_platform = None
    end.
Proof.
  split; [reflexivity|].
  refine (proj1 (body_params_override demo_platform
                   {[ "error" := VStr "n/a"; "greeting" := VStr "Hi" ]}
                   "error" (VStr "n/a") _) (Some "me@example.com") demo_world).
  vm_compute. reflexivity.
Defined.

(** * Further properties of sender.py *)

(** ** The transport *)

Section Delivery.

Context (P : Platform).

Lemma until_raise_prefix calls : (until_raise P calls).1 `prefix_of` calls.
Proof.
  induction calls as [|c rest IH]; simpl; [reflexivity|].
  destruct (smtp_raises P c); simpl.
  - exists rest. reflexivity.
  - apply prefix_cons, IH.
Qed.

Lemma until_raise_None calls :
  (until_raise P calls).2 = None ↔ Forall (λ c, smtp_raises P c = None) calls.
Proof.
  induction calls as [|c rest IH]; simpl.
  - split; [constructor | reflexivity].
  - destruct (smtp_raises P c) eqn:E; simpl.
    + split; [discriminate | intros H; inversion H; congruence].
    + rewrite IH. split; [intros H; constructor; assumption | intros H; inversion H; assumption].
Qed.

Lemma until_raise_all calls :
  (until_raise P calls).2 = None → (until_raise P calls).1 = calls.
Proof.
  induction calls as [|c rest IH]; simpl; [reflexivity|].
  destruct (smtp_raises P c); simpl; [discriminate|].
  intros H. rewrite IH by exact H. reflexivity.
Qed.

Lemma until_raise_Some calls cause :
  (until_raise P calls).2 = Some cause →
  ∃ front c, (until_raise P calls).1 = (front ++ [c])%list
             ∧ Forall (λ c', smtp_raises P c' = None) front
             ∧ smtp_raises P c = Some cause.
Proof.
  induction calls as [|c rest IH]; simpl; [discriminate|].
  destruct (smtp_raises P c) eqn:E; simpl.
  - intros [= ->]. exists [], c. split; [reflexivity|]. split; [constructor | exact E].
  - intros H. destruct (IH H) as (front & c' & Hmade & Hfront & Hc').
    exists (c :: front), c'. rewrite Hmade. split; [reflexivity|].
    split; [constructor; assumption | exact Hc'].
Qed.

(** [send_message] makes the calls of its plan until one raises. *)
Lemma send_message_run msg w :
  send_message P msg w
  = (match (until_raise P (planned_calls (this w) msg)).2 with
     | None => Return tt
     | Some cause => Raise (DeliveryError cause)
     end,
     {| this := this w;
        trace := (trace w ++ (Smtp <$> (until_raise P (planned_calls (this w) msg)).1))%list;
        clock := clock w |}).
Proof.
  destruct (send_message P msg w) as [r w'] eqn:Hrun.
  exec_in Hrun; unfold planned_calls;
    cbn [app until_raise fst snd fmap list_fmap];
    repeat match goal with
           | H : ?x = _ |- context [?x] =>
               rewrite H; cbn [app until_raise fst snd fmap list_fmap]
           end;
    rewrite <- ?app_assoc; reflexivity.
Qed.

(** X1: [send_message] makes the calls of its plan in order (constructor,
    starttls if asked for, login if a user name or a password is set, the
    message, quit) and stops with the first call that raises: the calls made
    are a prefix of the plan, every call before the last made one
    succeeded, the method returns exactly when the whole plan was made
    without a raise, and otherwise it raises the cause of the last call
    made. *)
Theorem send_message_follows_plan (msg : EmailMessage) (w : World) :
  ∃ made,
    trace (send_message P msg w).2 = (trace w ++ (Smtp <$> made))%list
    ∧ made `prefix_of` planned_calls (this w) msg
    ∧ ((send_message P msg w).1 = Return tt
       ↔ made = planned_calls (this w) msg
         ∧ Forall (λ c, smtp_raises P c = None) (planned_calls (this w) msg))
    ∧ ∀ e, (send_message P msg w).1 = Raise e →
           ∃ front c cause,
             made = (front ++ [c])%list
             ∧ Forall (λ c', smtp_raises P c' = None) front
             ∧ smtp_raises P c = Some cause
             ∧ e = DeliveryError cause.
Proof.
  rewrite send_message_run. cbn [fst snd trace].
  exists (until_raise P (planned_calls (this w) msg)).1.
  split; [reflexivity|]. split; [apply until_raise_prefix|].
  destruct ((until_raise P (planned_calls (this w) msg)).2) as [cause|] eqn:E.
  - split.
    + split; [discriminate|]. intros [_ Hall].
      apply until_raise_None in Hall. congruence.
    + intros e [= <-].
      destruct (until_raise_Some _ _ E) as (front & c & Hmade & Hfront & Hc).
      exists front, c, cause. auto.
  - split; [|discriminate].
    split; [|reflexivity]. intros _.
    split; [apply until_raise_all, E | apply until_raise_None, E].
Qed.

(** X2: [quit] is called only when every call before it succeeded: if the
    constructor, starttls, login or the hand-over of the message raises, the
    server is never told to quit. *)
Theorem quit_only_after_success (msg : EmailMessage) (w : World) :
  ∃ wire,
    trace (send_message P msg w).2 = (trace w ++ wire)%list
    ∧ (Smtp SmtpQuit ∈ wire →
       ∀ c, c ∈ planned_calls (this w) msg → c ≠ SmtpQuit → smtp_raises P c = None).
Proof.
  destruct (send_message P msg w) as [r w'] eqn:Hrun.
  exec_in Hrun; cbn [fst snd trace]; rewrite <- ?app_assoc; cbn [app];
    eexists; (split; [reflexivity|]); intros Hquit;
    repeat (apply elem_of_cons in Hquit as [Hquit|Hquit]; [try discriminate Hquit|]);
    try (apply elem_of_nil in Hquit; contradiction);
    intros c Hc Hne; unfold planned_calls in Hc;
    repeat match type of Hc with
           | context [if ?b then _ else _] =>
               match goal with H : b = _ |- _ => rewrite H in Hc end
           end;
    cbn [app] in Hc;
    repeat (apply elem_of_cons in Hc as [->|Hc]; [first [assumption | congruence]|]);
    apply elem_of_nil in Hc; contradiction.
Qed.

End Delivery.

Section Connection.

Context (P : Platform).

Lemma credentials_set (u p : option string) :
  is_not_None u || is_not_None p = true ↔ u ≠ None ∨ p ≠ None.
Proof.
  destruct u, p; simpl; split; intros H; try reflexivity; try discriminate;
    try (left; discriminate); try (right; discriminate).
  destruct H as [H|H]; contradiction.
Qed.

(** X3: [connect] logs in exactly when a user name or a password is set on
    the object: a login call, if made, carries the stored user name and
    password, one of which is not [None], and a [connect] that returns on
    an object with either of them set has logged in. With neither set no
    login is attempted. *)
Theorem login_iff_credentials (w : World) :
  ∃ wire,
    trace (connect P w).2 = (trace w ++ wire)%list
    ∧ (∀ u p, Smtp (SmtpLogin u p) ∈ wire →
              u = self.user_name (this w) ∧ p = self.password (this w)
              ∧ (u ≠ None ∨ p ≠ None))
    ∧ ((connect P w).1 = Return tt →
       self.user_name (this w) ≠ None ∨ self.password (this w) ≠ None →
       Smtp (SmtpLogin (self.user_name (this w)) (self.password (this w))) ∈ wire).
Proof.
  destruct (connect P w) as [r w'] eqn:Hrun.
  exec_in Hrun; cbn [fst snd trace]; rewrite <- ?app_assoc; cbn [app];
    eexists; (split; [first [reflexivity | symmetry; apply app_nil_r]|]);
    (split; [intros u p Hin | intros Hret Hset]);
    try discriminate Hret;
    try (repeat (apply elem_of_cons in Hin as [Hin|Hin];
                 [try discriminate Hin;
                  injection Hin as -> ->; (split; [reflexivity|]);
                  (split; [reflexivity|]); apply credentials_set; assumption|]);
         apply elem_of_nil in Hin; contradiction);
    try (apply credentials_set in Hset; congruence);
    repeat first [apply list_elem_of_here | apply list_elem_of_further].
Qed.

(** X4: on an object with [use_starttls] set, [connect] sends the
    credentials only after a [starttls] call that did not raise: every login
    call in its trace comes after the starttls call. *)
Theorem login_after_starttls (w : World) :
  self.use_starttls (this w) = true →
  ∃ wire,
    trace (connect P w).2 = (trace w ++ wire)%list
    ∧ ∀ i u p, wire !! i = Some (Smtp (SmtpLogin u p)) →
               smtp_raises P SmtpStarttls = None
               ∧ ∃ j, j < i ∧ wire !! j = Some (Smtp SmtpStarttls).
Proof.
  intros Htls.
  destruct (connect P w) as [r w'] eqn:Hrun.
  exec_in Hrun; try congruence; cbn [fst snd trace]; rewrite <- ?app_assoc; cbn [app];
    eexists; (split; [first [reflexivity | symmetry; apply app_nil_r]|]);
    intros i u p Hi;
    repeat first
      [ rewrite lookup_nil in Hi; discriminate Hi
      | destruct i as [|i]; simpl in Hi; try discriminate Hi ];
    (split; [first [assumption | reflexivity]|]); exists 1; (split; [lia | reflexivity]).
Qed.

Lemma smtp_preserves c : preserves_self (smtp P c).
Proof. unfold smtp. frame. Qed.

Lemma send_message_preserves msg : preserves_self (send_message P msg).
Proof. intros w. rewrite send_message_run. reflexivity. Qed.

(** X5: [send], [send_message] and [connect] leave the composing object as
    they found it, whether they return or raise: sending never changes a
    stored default or an SMTP setting. *)
Theorem send_keeps_defaults (a : kw.args) (msg : EmailMessage) (w : World) :
  this (send P a w).2 = this w
  ∧ this (send_message P msg w).2 = this w
  ∧ this (connect P w).2 = this w.
Proof.
  split; [|split].
  - unfold send. rewrite bind_run.
    pose proof (get_message_preserves P a w) as Hthis.
    destruct (get_message P a w) as [[m|e] w1]; simpl in Hthis; [|exact Hthis].
    rewrite bind_run, send_message_run.
    destruct ((until_raise P (planned_calls (this w1) m)).2); exact Hthis.
  - apply send_message_preserves.
  - revert w. change (preserves_self (connect P)).
    unfold connect. pose proof smtp_preserves. frame.
Qed.

(** X6: [send] returns a message exactly when [get_message] returns that
    message and no call of the delivery plan raises; the trace is then the
    trace of the composition followed by the whole plan, and the object is
    unchanged. *)
Theorem send_returns_iff (a : kw.args) (w w' : World) (msg : EmailMessage) :
  send P a w = (Return msg, w')
  ↔ ∃ w1, get_message P a w = (Return msg, w1)
          ∧ Forall (λ c, smtp_raises P c = None) (planned_calls (this w) msg)
          ∧ w' = {| this := this w;
                    trace := trace w1 ++ (Smtp <$> planned_calls (this w) msg);
                    clock := clock w1 |}.
Proof.
  unfold send. rewrite bind_run.
  pose proof (get_message_preserves P a w) as Hthis.
  destruct (get_message P a w) as [[msg0|e] w1]; simpl in Hthis.
  - rewrite bind_run, send_message_run, Hthis.
    destruct ((until_raise P (planned_calls (this w) msg0)).2) as [cause|] eqn:E.
    + split; [discriminate|]. intros (w2 & [= -> ->] & Hall & _).
      apply until_raise_None in Hall. congruence.
    + rewrite (until_raise_all _ _ E). cbv [mret M_ret]. split.
      * intros [= -> <-]. exists w1. split; [reflexivity|].
        split; [apply until_raise_None, E | reflexivity].
      * intros (w2 & [= -> ->] & _ & ->). reflexivity.
  - split; [discriminate|]. intros (w2 & [=] & _).
Qed.

(** X7: an exception of [send] has one of two origins. Either
    [get_message] raised it, and [send] ends in the same state, before any
    call on the server; or a message was composed and a call of the
    delivery plan raised, and the exception is the [DeliveryError] of that
    call, the last one in the trace. *)
Theorem send_raise_origin (a : kw.args) (w w' : World) (e : Exc) :
  send P a w = (Raise e, w') →
  get_message P a w = (Raise e, w')
  ∨ ∃ msg w1 front c cause,
      get_message P a w = (Return msg, w1)
      ∧ (front ++ [c])%list `prefix_of` planned_calls (this w) msg
      ∧ Forall (λ c', smtp_raises P c' = None) front
      ∧ smtp_raises P c = Some cause
      ∧ e = DeliveryError cause
      ∧ trace w' = (trace w1 ++ (Smtp <$> front) ++ [Smtp c])%list.
Proof.
  unfold send. rewrite bind_run.
  pose proof (get_message_preserves P a w) as Hthis.
  destruct (get_message P a w) as [[msg0|e0] w1]; simpl in Hthis.
  - rewrite bind_run, send_message_run, Hthis.
    pose proof (until_raise_prefix P (planned_calls (this w) msg0)) as Hprefix.
    destruct ((until_raise P (planned_calls (this w) msg0)).2) as [cause|] eqn:E;
      [|discriminate].
    destruct (until_raise_Some _ _ _ E) as (front & c & Hmade & Hfront & Hc).
    rewrite Hmade in *. rewrite fmap_app.
    intros [= <- <-]. right.
    exists msg0, w1, front, c, cause. repeat split; assumption.
  - intros [= <- <-]. left. reflexivity.
Qed.

End Connection.

(** ** Composition *)

Section Composition.

Context (P : Platform).

(** X8: a call that resolves a subject and has no text, no HTML, no
    template and no attachments (an empty attachments dictionary counts as
    none) does what [_create_body] does and nothing more: it returns the
    message of [_create_body], with no content, or raises the [ValueError]
    with which the email library refused a header value, without calling
    any collaborator and without reading the user or the clock. It returns
    whenever the library accepts the sender, the subject and the recipients
    that are set; missing receivers are no error. *)
Theorem bodiless_message (a : kw.args) (w : World) (s : string) :
  py_or (kw.subject a) (self.subject (this w)) = Some s →
  has_text (this w) a = false →
  has_html (this w) a = false →
  truthy (kw.attachments a) = false →
  let sender := py_or (py_or (kw.sender a) (self.sender (this w)))
                      (self.user_name (this w)) in
  let receivers := py_or (kw.receivers a) (self.receivers (this w)) in
  let cc := py_or (kw.cc a) (self.cc (this w)) in
  let bcc := py_or (kw.bcc a) (self.bcc (this w)) in
  get_message P a w = (_create_body P s sender receivers cc bcc, w)
  ∧ (∀ e, (get_message P a w).1 = Raise e →
          e = ValueError linefeed_message ∨ e = ValueError address_message)
  ∧ (value_accepted P "from" (header_of_str sender) = true →
     accepted P "subject" s = true →
     (truthy receivers = true →
      value_accepted P "to" (header_of_recipients receivers) = true) →
     (truthy cc = true → value_accepted P "cc" (header_of_recipients cc) = true) →
     (truthy bcc = true → value_accepted P "bcc" (header_of_recipients bcc) = true) →
     get_message P a w = (Return (created_message s sender receivers cc bcc), w)).
Proof.
  intros Hs Ht Hh Ha sender receivers cc bcc. unfold has_text, has_html in Ht, Hh.
  assert (get_message P a w = (_create_body P s sender receivers cc bcc, w)) as Hrun.
  { subst sender receivers cc bcc.
    destruct (get_message P a w) as [r w'] eqn:Hrun.
    exec_in Hrun; try congruence;
      try (change (truthy (Some l)) with (truthy l) in Ha; congruence);
      destruct w; reflexivity. }
  split; [exact Hrun|]. rewrite Hrun. cbn [fst]. split.
  - intros e. apply create_body_raises.
  - intros Hfrom Hsubject Hto Hcc Hbcc.
    rewrite create_body_accepted by assumption. reflexivity.
Qed.

(** X9: the table theme of a body is loaded whenever the body is attached,
    whether or not the call passes tables: with a text body, a text
    template that is found if one is named, and a default text theme that
    the table environment lacks, [get_message] never returns a message. It
    raises [TemplateNotFound] for the theme before anything is attached,
    unless [_create_body], which runs first, has already raised for a
    header value that the email library refuses. *)
Theorem missing_text_theme (a : kw.args) (w : World) (s theme : string) :
  py_or (kw.subject a) (self.subject (this w)) = Some s →
  has_text (this w) a = true →
  (∀ n, py_or (kw.text_template a) (self.text_template (this w)) = Some n →
        is_Some (self.templates_text (this w) !! n)) →
  self.default_text_theme (this w) = Some theme →
  self.templates_text_table (this w) !! theme = None →
  get_message P a w
  = (match _create_body P s
             (py_or (py_or (kw.sender a) (self.sender (this w)))
                    (self.user_name (this w)))
             (py_or (kw.receivers a) (self.receivers (this w)))
             (py_or (kw.cc a) (self.cc (this w)))
             (py_or (kw.bcc a) (self.bcc (this w))) with
     | Return _ => Raise (TemplateNotFound theme)
     | Raise e => Raise e
     end, w).
Proof.
  unfold has_text. intros Hs Ht Hfound Htheme Hmissing.
  destruct (get_message P a w) as [r w'] eqn:Hrun.
  exec_in Hrun; try congruence;
    try (destruct (Hfound _ eq_refl) as [? ?]; congruence);
    repeat match goal with
           | H : py_or (kw.subject a) _ = Some _ |- _ =>
               rewrite Hs in H; injection H as <-
           | H : _create_body _ _ _ _ _ _ = _ |- _ => rewrite H
           end;
    try (destruct w; reflexivity); congruence.
Qed.

(** X10: a template name that its environment lacks fails the composition:
    with a resolved subject, an unknown text template raises
    [TemplateNotFound] for that name before anything is attached, unless
    [_create_body], which runs first, has already raised for a header value
    that the email library refuses; and with an unknown HTML template
    [get_message] never returns a message. *)
Theorem unknown_template (a : kw.args) (w : World) (s n : string) :
  py_or (kw.subject a) (self.subject (this w)) = Some s →
  (py_or (kw.text_template a) (self.text_template (this w)) = Some n →
   self.templates_text (this w) !! n = None →
   get_message P a w
   = (match _create_body P s
              (py_or (py_or (kw.sender a) (self.sender (this w)))
                     (self.user_name (this w)))
              (py_or (kw.receivers a) (self.receivers (this w)))
              (py_or (kw.cc a) (self.cc (this w)))
              (py_or (kw.bcc a) (self.bcc (this w))) with
      | Return _ => Raise (TemplateNotFound n)
      | Raise e => Raise e
      end, w))
  ∧ (py_or (kw.html_template a) (self.html_template (this w)) = Some n →
     self.templates_html (this w) !! n = None →
     ∀ msg, (get_message P a w).1 ≠ Return msg).
Proof.
  intros Hs. split.
  - intros Hn Hmissing.
    destruct (get_message P a w) as [r w'] eqn:Hrun.
    exec_in Hrun; try rewrite Hn in *; simpl in *; rewrite ?orb_true_r in *;
      try congruence;
      repeat match goal with
             | H : py_or (kw.subject a) _ = Some _ |- _ =>
                 rewrite Hs in H; injection H as <-
             | H : _create_body _ _ _ _ _ _ = _ |- _ => rewrite H
             end;
      try (destruct w; reflexivity); congruence.
  - intros Hn Hmissing msg.
    destruct (get_message P a w) as [r w'] eqn:Hrun.
    exec_in Hrun; try rewrite Hn in *; simpl in *; rewrite ?orb_true_r in *;
      congruence.
Qed.

(** X11: [get_message] attaches at most one text body, then at most one
    HTML body, then at most one group of attachments, and calls nothing
    else: the steps in its trace are a prefix of the planned steps (a text
    body if a text or a text template is resolved, an HTML body likewise,
    attachments if the dictionary is not empty), and all of them when a
    message is returned. *)
Theorem attach_steps (a : kw.args) (w : World) :
  ∃ evs,
    trace (get_message P a w).2 = (trace w ++ evs)%list
    ∧ (step_of <$> evs) `prefix_of` planned_steps (this w) a
    ∧ ∀ msg, (get_message P a w).1 = Return msg →
             step_of <$> evs = planned_steps (this w) a.
Proof.
  unfold planned_steps, has_text, has_html.
  destruct (get_message P a w) as [r w'] eqn:Hrun.
  exec_in Hrun; cbn [fst snd trace]; rewrite <- ?app_assoc; cbn [app];
    eexists; (split; [first [reflexivity | symmetry; apply app_nil_r]|]);
    repeat match goal with
           | H : orb _ _ = _ |- _ => rewrite H
           | H : kw.attachments _ = _ |- _ => rewrite H
           end;
    cbn [fmap list_fmap step_of app truthy option_truthy];
    repeat match goal with
           | H : truthy _ = _ |- _ => rewrite H
           end;
    cbn [app];
    (split; [first [apply prefix_nil | eexists; reflexivity]|]);
    intros msg Hret; try discriminate Hret; reflexivity.
Qed.

(** X12: the sender that the templates see is the sender of the message:
    when a message is composed, every body it attached was given, under
    ["sender"], the address that is in the from header, unless body_params
    carries that name. *)
Theorem template_sender_is_from (a : kw.args) (w w' : World) (msg : EmailMessage) :
  get_message P a w = (Return msg, w') →
  ∃ address evs,
    get_header "from" msg = Some (header_of_str address)
    ∧ trace w' = (trace w ++ evs)%list
    ∧ ∀ kind template table_template content images tables params,
        BodyAttach kind template table_template content images tables params ∈ evs →
        default ∅ (kw.body_params a) !! "sender" = None →
        params !! "sender" = Some (VEmailAddress address).
Proof.
  intros Hrun.
  destruct (get_message_params P a w) as (evs & Htrace & Hparams).
  rewrite Hrun in Htrace. cbn [snd] in Htrace.
  eexists _, evs. split; [eapply get_message_from, Hrun|]. split; [exact Htrace|].
  intros kind template table_template content images tables params Hin Hfree.
  apply Hparams in Hin as (user & _ & ->).
  rewrite lookup_union, Hfree. unfold implicit_variables. reflexivity.
Qed.

(** X13: the HTML and the text parameter sets of a call differ at most in
    the error marker and in the time: each of the two methods reads the
    user and the clock for itself, so one raises exactly when the other
    does, and the sets they return agree on every name other than ["error"]
    and ["now"]; they agree on ["now"] too when the two readings of the
    clock give the same time or body_params carries the name, and they are
    equal when body_params carries both names. *)
Theorem params_differ_at_error_and_now (extra : option (gmap string pyval))
        (sender : option string) (w w' : World) :
  (∀ e, (get_html_params P extra sender w).1 = Raise e
        ↔ (get_text_params P extra sender w').1 = Raise e)
  ∧ ∀ ph pt,
      (get_html_params P extra sender w).1 = Return ph →
      (get_text_params P extra sender w').1 = Return pt →
      (∀ k, k ≠ "error" → k ≠ "now" → ph !! k = pt !! k)
      ∧ (now P (clock w) = now P (clock w') ∨ is_Some (default ∅ extra !! "now") →
         ph !! "now" = pt !! "now")
      ∧ (is_Some (default ∅ extra !! "error") →
         is_Some (default ∅ extra !! "now") →
         ph = pt).
Proof.
  rewrite get_html_params_run, get_text_params_run.
  destruct (getuser P) as [user|]; cbn [fst]; [|split; [reflexivity | discriminate]].
  split; [intros e; split; discriminate|].
  intros ph pt [= <-] [= <-].
  assert (∀ k, k ≠ "error" → k ≠ "now" →
               implicit_variables P HTMLBody sender user (now P (clock w)) !! k
               = implicit_variables P TextBody sender user (now P (clock w')) !! k)
    as Hsame.
  { intros k Hk Hk'. unfold implicit_variables.
    rewrite !lookup_insert. repeat case_decide; try reflexivity; try congruence.
    rewrite !lookup_singleton. case_decide; [congruence | reflexivity]. }
  split; [|split].
  - intros k Hk Hk'. rewrite !lookup_union, Hsame by assumption. reflexivity.
  - intros [Hnow|[v Hv]]; rewrite !lookup_union.
    + rewrite Hnow. unfold implicit_variables. reflexivity.
    + rewrite Hv. unfold implicit_variables.
      destruct (_ !! "now"), (_ !! "now"); reflexivity.
  - intros [v Hv] [v' Hv']. apply map_eq. intros k. rewrite !lookup_union.
    destruct (decide (k = "error")) as [->|Hk].
    + rewrite Hv. unfold implicit_variables.
      destruct (_ !! "error"), (_ !! "error"); reflexivity.
    + destruct (decide (k = "now")) as [->|Hk'].
      * rewrite Hv'. unfold implicit_variables.
        destruct (_ !! "now"), (_ !! "now"); reflexivity.
      * rewrite Hsame by assumption. reflexivity.
Qed.

End Composition.

(** ** Template paths *)

Section TemplatePaths.

Context (P : Platform).


(** X15: a path given to [set_template_paths] is where the templates are
    looked up from then on: after the call, [get_html_template] and
    [get_text_template] return the template that the loader of the new path
    has under the name, and raise [TemplateNotFound] if it has none;
    without a name they return [None]. *)
Theorem set_path_then_get_template (path name : string)
        (h t ht tt : option string) (w : World) :
  (set_template_paths P (Some path) t ht tt ;; get_html_template (Some name)) w
  = (match file_system_loader P path !! name with
     | Some template => Return (Some template)
     | None => Raise (TemplateNotFound name)
     end, (set_template_paths P (Some path) t ht tt w).2)
  ∧ (set_template_paths P h (Some path) ht tt ;; get_text_template (Some name)) w
    = (match file_system_loader P path !! name with
       | Some template => Return (Some template)
       | None => Raise (TemplateNotFound name)
       end, (set_template_paths P h (Some path) ht tt w).2)
  ∧ (set_template_paths P h t ht tt ;; get_html_template None) w
    = (Return None, (set_template_paths P h t ht tt w).2)
  ∧ (set_template_paths P h t ht tt ;; get_text_template None) w
    = (Return None, (set_template_paths P h t ht tt w).2).
Proof.
  repeat split; try reflexivity;
    unfold set_template_paths, setattr, get_html_template, get_text_template,
      get_template;
    cbv [mbind M_bind fmap M_fmap mret M_ret attr raise]; cbn;
    destruct (file_system_loader P path !! name); reflexivity.
Qed.

End TemplatePaths.

(** ** SMTP settings and the message *)

(** X16: the composed message does not depend on the SMTP settings of the
    object: assigning another host, port, password, use_starttls, cls_smtp
    or kws_smtp changes neither the outcome of [get_message] nor the bodies
    and attachments it attaches. (The user name is not among them: it is
    the last resort for the sender.) *)
Theorem message_ignores_smtp_settings (P : Platform) (a : kw.args)
        (host : string) (port : Z) (password : option string) (tls : bool)
        (cls : smtp_class) (kws : gmap string pyval) (o : EmailSender)
        (tr : list Event) (n : nat) :
  (get_message P a {| this := with_smtp host port password tls cls kws o;
                      trace := tr; clock := n |}).1
  = (get_message P a {| this := o; trace := tr; clock := n |}).1
  ∧ trace (get_message P a {| this := with_smtp host port password tls cls kws o;
                              trace := tr; clock := n |}).2
    = trace (get_message P a {| this := o; trace := tr; clock := n |}).2.
Proof.
  destruct (get_message P a {| this := o; trace := tr; clock := n |}) as [r w'] eqn:Hrun.
  destruct (get_message P a {| this := with_smtp host port password tls cls kws o;
                               trace := tr; clock := n |}) as [r2 w2] eqn:Hrun2.
  exec_in Hrun;
    unfold get_message, get_sender, get_receivers,
      get_cc, get_bcc, get_text_template, get_text_table_template, get_html_template,
      get_html_table_template, attach, get_template, get_text_params, get_html_params,
      get_params in Hrun2;
    cbv [mbind M_bind fmap M_fmap mret M_ret attr raise emit lift getuser_call
         datetime_now] in Hrun2;
    repeat (cbn [fst snd this trace clock with_smtp self.subject self.sender
                 self.user_name self.receivers self.cc self.bcc self.html self.text
                 self.html_template self.text_template self.default_html_theme
                 self.default_text_theme self.templates_html self.templates_html_table
                 self.templates_text self.templates_text_table
                 self.attachment_encoding] in Hrun2;
            lazymatch type of Hrun2 with
            | ?t = _ =>
                let x := find_scrut t in
                first
                  [ match goal with
                    | E : x = _ |- _ => rewrite E in Hrun2
                    end
                  | match goal with
                    | E : ?y = _ |- _ =>
                        lazymatch x with context [y] => rewrite E in Hrun2 end
                    end ];
                cbv beta iota in Hrun2
            end);
    injection Hrun2 as <- <-; split; reflexivity.
Qed.

(** ** The further properties at concrete calls *)

(** The demo sender connects with starttls and logs in after it. *)
Lemma login_after_starttls_witness :
  self.use_starttls (this demo_world) = true
  ∧ ∃ wire,
      trace (connect demo_platform demo_world).2 = (trace demo_world ++ wire)%list
      ∧ ∀ i u p, wire !! i = Some (Smtp (SmtpLogin u p)) →
                 smtp_raises demo_platform SmtpStarttls = None
                 ∧ ∃ j, j < i ∧ wire !! j = Some (Smtp SmtpStarttls).
Proof.
  split; [reflexivity|].
  apply (login_after_starttls demo_platform demo_world). reflexivity.
Defined.

(** A server that refuses the message: the exception of [send] is the
    delivery error, and the composition succeeded. *)
Lemma send_raise_origin_witness :
  (send rejecting_platform both_bodies_call demo_world).1
  = Raise (DeliveryError "550 rejected")
  ∧ ∃ msg w1 front c cause,
      get_message rejecting_platform both_bodies_call demo_world = (Return msg, w1)
      ∧ (front ++ [c])%list `prefix_of` planned_calls (this demo_world) msg
      ∧ Forall (λ c', smtp_raises rejecting_platform c' = None) front
      ∧ smtp_raises rejecting_platform c = Some cause
      ∧ DeliveryError "550 rejected" = DeliveryError cause
      ∧ trace (send rejecting_platform both_bodies_call demo_world).2
        = (trace w1 ++ (Smtp <$> front) ++ [Smtp c])%list.
Proof.
  split; [vm_compute; reflexivity|].
  destruct (send_raise_origin rejecting_platform both_bodies_call demo_world
              (send rejecting_platform both_bodies_call demo_world).2
              (DeliveryError "550 rejected")) as [Hcomposition|Hdelivery].
  - vm_compute. reflexivity.
  - exfalso. vm_compute in Hcomposition. discriminate Hcomposition.
  - exact Hdelivery.
Defined.

(** A subject, an empty attachments dictionary and nothing else. *)
Lemma bodiless_message_witness :
  py_or (kw.subject subject_only_call) (self.subject (this demo_world)) = Some "Report"
  ∧ has_text (this demo_world) subject_only_call = false
  ∧ has_html (this demo_world) subject_only_call = false
  ∧ truthy (kw.attachments subject_only_call) = false
  ∧ get_message demo_platform subject_only_call demo_world
    = (Return {| headers := [("from", HText "robot@example.com");
                             ("subject", HText "Report")];
                 body := None |}, demo_world).
Proof.
  repeat (split; [reflexivity|]).
  refine (proj2 (proj2 (bodiless_message demo_platform subject_only_call demo_world
                          "Report" _ _ _ _)) _ _ _ _ _);
    intros; vm_compute; reflexivity.
Defined.

(** The text table environment was moved to a directory without themes. *)
Lemma missing_text_theme_witness :
  py_or (kw.subject titled_text_call) (self.subject (this relocated_world)) = Some "Hi"
  ∧ has_text (this relocated_world) titled_text_call = true
  ∧ self.default_text_theme (this relocated_world) = Some "pandas.txt"
  ∧ self.templates_text_table (this relocated_world) !! "pandas.txt" = None
  ∧ get_message demo_platform titled_text_call relocated_world
    = (Raise (TemplateNotFound "pandas.txt"), relocated_world).
Proof.
  repeat (split; [vm_compute; reflexivity|]).
  refine (eq_trans (missing_text_theme demo_platform titled_text_call relocated_world
                      "Hi" "pandas.txt" _ _ _ _ _) _).
  - reflexivity.
  - reflexivity.
  - intros n Hn. vm_compute in Hn. discriminate Hn.
  - reflexivity.
  - vm_compute. reflexivity.
  - vm_compute. reflexivity.
Defined.

(** The demo sender has no text templates at all. *)
Lemma unknown_template_witness :
  py_or (kw.subject unknown_template_call) (self.subject (this demo_world)) = Some "Hi"
  ∧ py_or (kw.text_template unknown_template_call)
          (self.text_template (this demo_world)) = Some "welcome.txt"
  ∧ self.templates_text (this demo_world) !! "welcome.txt" = None
  ∧ get_message demo_platform unknown_template_call demo_world
    = (Raise (TemplateNotFound "welcome.txt"), demo_world).
Proof.
  repeat (split; [vm_compute; reflexivity|]).
  refine (eq_trans (proj1 (unknown_template demo_platform unknown_template_call
                             demo_world "Hi" "welcome.txt" _) _ _) _).
  - reflexivity.
  - reflexivity.
  - vm_compute. reflexivity.
  - vm_compute. reflexivity.
Defined.

(** Both bodies of the demo call see the user name as sender. *)
Lemma template_sender_is_from_witness :
  (get_message demo_platform both_bodies_call demo_world).1 = Return both_bodies_message
  ∧ ∃ address evs,
      get_header "from" both_bodies_message = Some (header_of_str address)
      ∧ trace (get_message demo_platform both_bodies_call demo_world).2
        = (trace demo_world ++ evs)%list
      ∧ ∀ kind template table_template content images tables params,
          BodyAttach kind template table_template content images tables params ∈ evs →
          default ∅ (kw.body_params both_bodies_call) !! "sender" = None →
          params !! "sender" = Some (VEmailAddress address).
Proof.
  split; [vm_compute; reflexivity|].
  apply (template_sender_is_from demo_platform both_bodies_call demo_world
           (get_message demo_platform both_bodies_call demo_world).2
           both_bodies_message).
  vm_compute. reflexivity.
Defined.

(** The text body of a call reads the clock first and the HTML body after
    it: the two parameter sets agree on node, user and sender, and not on
    the time. *)
Lemma params_differ_at_error_and_now_witness :
  let sender := Some "me@example.com" in
  let w := (get_text_params demo_platform None sender demo_world).2 in
  let ph := implicit_variables demo_platform HTMLBody sender "alice" 1700000001 in
  let pt := implicit_variables demo_platform TextBody sender "alice" 1700000000 in
  (get_html_params demo_platform None sender w).1 = Return ph
  ∧ (get_text_params demo_platform None sender demo_world).1 = Return pt
  ∧ (∀ k, k ≠ "error" → k ≠ "now" → ph !! k = pt !! k)
  ∧ ph !! "now" ≠ pt !! "now".
Proof.
  intros sender w ph pt.
  assert ((get_html_params demo_platform None sender w).1 = Return ph) as Hh
    by (vm_compute; reflexivity).
  assert ((get_text_params demo_platform None sender demo_world).1 = Return pt) as Ht
    by (vm_compute; reflexivity).
  split; [exact Hh|]. split; [exact Ht|]. split.
  - exact (proj1 (proj2 (params_differ_at_error_and_now demo_platform None sender
                           w demo_world) ph pt Hh Ht)).
  - vm_compute. discriminate.
Defined.
